(** * StockSage: the deterministic sentiment subsystem

    A shallow embedding of [SentimentAnalysisTool] as it is written in
    [src/stocksage/tools/sentiment_analysis_tool.py] and, a second time, in
    [src/tradesymphony/tools/finance_tools.py].

    Conventions of the embedding.
    - A Python [str] is a Rocq [string] holding its UTF-8 bytes, so that
      [s.encode()] is the identity and f-string interpolation is [+:+].
      [str.lower] acts on the ASCII letters.
    - A Python [int] is a [Z].  A Python [float] is the rational number it
      denotes ([Q]): comparisons, [int(.)], [round(., 2)], [abs], [min] and
      [max] are exact on it; the rounding error of binary64 arithmetic and
      its overflow are not modelled.
    - A dict read through [.get] and [in] is a [gmap string string]; a dict
      literal with fixed keys that the tool returns is a record.
    - Code that may raise returns a [result]; the exceptions are the ones
      the interpreter raises at that point.
    - The libraries the tool calls are modelled as follows: [hashlib.md5]
      is implemented (RFC 1321); [datetime] is the proleptic Gregorian
      ordinal arithmetic of CPython; [TextBlob(text).sentiment.polarity] is
      a parameter [polarity]; the network ([requests.post]) and the clock
      ([datetime.now]) are fields of an environment [Env].  Log lines are
      left out. *)

From Stdlib Require Import ZArith QArith Qround Qabs List Lia Lqa Bool Ascii String.
From stdpp Require Import base gmap strings.

#[local] Open Scope string_scope.
#[local] Open Scope Z_scope.

(* ===================================================================== *)
(** ** Python runtime: exceptions, numbers, strings, dicts *)
(* ===================================================================== *)

Module Py.

Inductive exn : Type :=
| ZeroDivisionError
| OverflowError
| ValueError
| TypeError
| KeyError
| AttributeError
| UnicodeEncodeError.

Inductive result (A : Type) : Type :=
| Ok (a : A)
| Raise (e : exn).
Arguments Ok {A} a.
Arguments Raise {A} e.

Definition bind {A B : Type} (m : result A) (k : A -> result B) : result B :=
  match m with
  | Ok a => k a
  | Raise e => Raise e
  end.

Definition returns {A : Type} (m : result A) : Prop :=
  exists a, m = Ok a.

(** [a % b] on ints: the result has the sign of [b]; [b = 0] raises. *)
Definition int_mod (a b : Z) : result Z :=
  if b =? 0 then Raise ZeroDivisionError else Ok (a mod b).

(** [a / b] on ints with a non-zero literal divisor: true division. *)
Definition true_div (a : Z) (b : positive) : Q := Qmake a b.

(** [int(x)] on a float: truncation toward zero. *)
Definition int_of_float (x : Q) : Z := Z.quot (Qnum x) (Zpos (Qden x)).

Definition float_of_int (z : Z) : Q := inject_Z z.

Definition ltb (x y : Q) : bool :=
  negb (Qle_bool y x).

(** [min(x, y)] returns [x] unless [y < x]; [max(x, y)] returns [x]
    unless [y > x]. *)
Definition min (x y : Q) : Q := if ltb y x then y else x.
Definition max (x y : Q) : Q := if ltb x y then y else x.

Definition abs (x : Q) : Q := Qabs x.

(** [round(x, 2)]: the nearest multiple of 1/100, ties to the even one. *)
Definition round_half_even (x : Q) : Z :=
  let f := Qfloor x in
  let r := (x - inject_Z f)%Q in
  if ltb r (1 # 2) then f
  else if ltb (1 # 2) r then f + 1
  else if Z.even f then f else f + 1.

Definition round2 (x : Q) : Q :=
  Qmake (round_half_even (x * 100)%Q) 100.

(** Truthiness of an [Optional[str]]: [None] and the empty string are
    false. *)
Definition truthy (s : option string) : bool :=
  match s with
  | None => false
  | Some EmptyString => false
  | Some _ => true
  end.

(** [s if s else alt] for an [Optional[str]] [s]. *)
Definition if_truthy (s : option string) (alt : string) : string :=
  match s with
  | Some (String _ _ as q) => q
  | _ => alt
  end.

Definition lower_ascii (a : ascii) : ascii :=
  let n := nat_of_ascii a in
  if andb (Nat.leb 65 n) (Nat.leb n 90) then ascii_of_nat (n + 32) else a.

Fixpoint lower (s : string) : string :=
  match s with
  | EmptyString => EmptyString
  | String a r => String (lower_ascii a) (lower r)
  end.

Fixpoint startswith (p s : string) : bool :=
  match p, s with
  | EmptyString, _ => true
  | String _ _, EmptyString => false
  | String a p', String b s' => if Ascii.eqb a b then startswith p' s' else false
  end.

(** [p in s] on strings. *)
Fixpoint contains (p s : string) : bool :=
  if startswith p s then true
  else match s with
       | EmptyString => false
       | String _ s' => contains p s'
       end.

(** [str(n)] for a non-negative int. *)
Fixpoint digits (fuel : nat) (n : Z) (acc : string) : string :=
  match fuel with
  | O => acc
  | S fuel' =>
      let acc' := String (ascii_of_nat (48 + Z.to_nat (n mod 10))) acc in
      if n / 10 =? 0 then acc' else digits fuel' (n / 10) acc'
  end.

Definition str_of_int (n : Z) : string :=
  digits (S (Z.to_nat (Z.log2 n))) n EmptyString.

(** [d.get(k, default)]. *)
Definition get {V : Type} (d : gmap string V) (k : string) (default : V) : V :=
  match d !! k with
  | Some v => v
  | None => default
  end.

(** [k in d]. *)
Definition has_key {V : Type} (d : gmap string V) (k : string) : bool :=
  match d !! k with
  | Some _ => true
  | None => false
  end.

(** A loop [for x in xs: body] threading the variables [acc] it
    assigns; an exception in the body leaves the loop. *)
Fixpoint for_each {A S : Type} (body : S -> A -> result S)
    (xs : list A) (acc : S) : result S :=
  match xs with
  | [] => Ok acc
  | x :: rest =>
      match body acc x with
      | Ok acc' => for_each body rest acc'
      | Raise e => Raise e
      end
  end.

End Py.

(** [result] is an error monad; [x ← m; k] is stdpp's bind notation. *)
#[global] Instance result_ret : MRet Py.result := @Py.Ok.
#[global] Instance result_bind : MBind Py.result :=
  fun A B k m => Py.bind m k.

(* ===================================================================== *)
(** ** hashlib.md5 (RFC 1321) *)
(* ===================================================================== *)

Module Hashlib.

Definition mask32 : Z := 4294967295.

Definition add32 (x y : Z) : Z := Z.land (x + y) mask32.

Definition not32 (x : Z) : Z := Z.lxor x mask32.

Definition rotl32 (x c : Z) : Z :=
  Z.land (Z.lor (Z.shiftl x c) (Z.shiftr x (32 - c))) mask32.

Definition shifts : list Z :=
  [7; 12; 17; 22; 7; 12; 17; 22; 7; 12; 17; 22; 7; 12; 17; 22;
   5; 9; 14; 20; 5; 9; 14; 20; 5; 9; 14; 20; 5; 9; 14; 20;
   4; 11; 16; 23; 4; 11; 16; 23; 4; 11; 16; 23; 4; 11; 16; 23;
   6; 10; 15; 21; 6; 10; 15; 21; 6; 10; 15; 21; 6; 10; 15; 21].

(** [floor(2^32 * abs(sin(i + 1)))] for [i] in [0, 64). *)
Definition sines : list Z :=
  [3614090360; 3905402710; 606105819; 3250441966;
   4118548399; 1200080426; 2821735955; 4249261313;
   1770035416; 2336552879; 4294925233; 2304563134;
   1804603682; 4254626195; 2792965006; 1236535329;
   4129170786; 3225465664; 643717713; 3921069994;
   3593408605; 38016083; 3634488961; 3889429448;
   568446438; 3275163606; 4107603335; 1163531501;
   2850285829; 4243563512; 1735328473; 2368359562;
   4294588738; 2272392833; 1839030562; 4259657740;
   2763975236; 1272893353; 4139469664; 3200236656;
   681279174; 3936430074; 3572445317; 76029189;
   3654602809; 3873151461; 530742520; 3299628645;
   4096336452; 1126891415; 2878612391; 4237533241;
   1700485571; 2399980690; 4293915773; 2240044497;
   1873313359; 4264355552; 2734768916; 1309151649;
   4149444226; 3174756917; 718787259; 3951481745].

Record state : Type := State { sa : Z; sb : Z; sc : Z; sd : Z }.

Definition init : state :=
  State 1732584193 4023233417 2562383102 271733878.

Definition bytes_of_string (s : string) : list Z :=
  map (fun a => Z.of_nat (nat_of_ascii a)) (list_ascii_of_string s).

(** The eight bytes of a 64-bit length, least significant first. *)
Definition le_bytes (n : nat) (x : Z) : list Z :=
  map (fun i => Z.land (Z.shiftr x (8 * Z.of_nat i)) 255) (seq 0 n).

Definition pad (msg : list Z) : list Z :=
  let len := Z.of_nat (length msg) in
  msg ++ [128] ++ repeat 0 (Z.to_nat ((55 - len) mod 64)) ++ le_bytes 8 (8 * len).

(** The [j]-th little-endian 32-bit word of a 64-byte block. *)
Definition word (block : list Z) (j : nat) : Z :=
  let b := fun k => nth (4 * j + k) block 0 in
  b 0%nat + 256 * b 1%nat + 65536 * b 2%nat + 16777216 * b 3%nat.

Definition step (block : list Z) (st : state) (i : nat) : state :=
  let '(State a b c d) := st in
  let '(f, g) :=
    if (i <? 16)%nat then
      (Z.lor (Z.land b c) (Z.land (not32 b) d), i)
    else if (i <? 32)%nat then
      (Z.lor (Z.land d b) (Z.land (not32 d) c), ((5 * i + 1) mod 16)%nat)
    else if (i <? 48)%nat then
      (Z.lxor (Z.lxor b c) d, ((3 * i + 5) mod 16)%nat)
    else
      (Z.lxor c (Z.lor b (not32 d)), ((7 * i) mod 16)%nat) in
  let f' := add32 (add32 (add32 f a) (nth i sines 0)) (word block g) in
  State d (add32 b (rotl32 f' (nth i shifts 0))) b c.

Definition compress (st : state) (block : list Z) : state :=
  let st' := fold_left (step block) (seq 0 64) st in
  State (add32 (sa st) (sa st')) (add32 (sb st) (sb st'))
        (add32 (sc st) (sc st')) (add32 (sd st) (sd st')).

Fixpoint blocks (n : nat) (bytes : list Z) : list (list Z) :=
  match n with
  | O => []
  | S n' => firstn 64 bytes :: blocks n' (skipn 64 bytes)
  end.

Definition digest (s : string) : list Z :=
  let bytes := pad (bytes_of_string s) in
  let st := fold_left compress (blocks (length bytes / 64) bytes) init in
  le_bytes 4 (sa st) ++ le_bytes 4 (sb st) ++ le_bytes 4 (sc st) ++ le_bytes 4 (sd st).

(** [int(hashlib.md5(s.encode()).hexdigest(), 16)]. *)
Definition md5_int (s : string) : Z :=
  fold_left (fun acc b => 256 * acc + b) (digest s) 0.

End Hashlib.

(* ===================================================================== *)
(** ** datetime: ordinals, timedelta, strftime *)
(* ===================================================================== *)

Module Datetime.

(** [date.max.toordinal()], the ordinal of 9999-12-31; the ordinal of
    0001-01-01 is 1. *)
Definition max_ordinal : Z := 3652059.

Definition max_delta_days : Z := 999999999.

Definition days_before_month : list Z :=
  [-1; 0; 31; 59; 90; 120; 151; 181; 212; 243; 273; 304; 334].

Definition days_in_month : list Z :=
  [-1; 31; 28; 31; 30; 31; 30; 31; 31; 30; 31; 30; 31].

Definition b2z (b : bool) : Z := if b then 1 else 0.

(** CPython's [_ord2ymd]. *)
Definition ord2ymd (ordinal : Z) : Z * Z * Z :=
  let n := ordinal - 1 in
  let n400 := n / 146097 in
  let n := n mod 146097 in
  let year := n400 * 400 + 1 in
  let n100 := n / 36524 in
  let n := n mod 36524 in
  let n4 := n / 1461 in
  let n := n mod 1461 in
  let n1 := n / 365 in
  let n := n mod 365 in
  let year := year + n100 * 100 + n4 * 4 + n1 in
  if orb (n1 =? 4) (n100 =? 4) then (year - 1, 12, 31)
  else
    let leapyear := andb (n1 =? 3) (orb (negb (n4 =? 24)) (n100 =? 3)) in
    let month := Z.shiftr (n + 50) 5 in
    let preceding :=
      nth (Z.to_nat month) days_before_month 0
      + b2z (andb (2 <? month) leapyear) in
    if n <? preceding then
      let month := month - 1 in
      let preceding :=
        preceding
        - (nth (Z.to_nat month) days_in_month 0
           + b2z (andb (month =? 2) leapyear)) in
      (year, month, n - preceding + 1)
    else (year, month, n - preceding + 1).

Definition two_digits (n : Z) : string :=
  if n <? 10 then "0" +:+ Py.str_of_int n else Py.str_of_int n.

(** [d.strftime("%Y-%m-%d")] for the date of ordinal [ordinal]. *)
Definition strftime_ymd (ordinal : Z) : string :=
  let '(y, m, d) := ord2ymd ordinal in
  Py.str_of_int y +:+ "-" +:+ two_digits m +:+ "-" +:+ two_digits d.

(** [(now - timedelta(days=k))], as the ordinal of the resulting date:
    [timedelta] refuses more than 999999999 days, and the subtraction
    refuses a date outside years 1..9999. *)
Definition minus_days (today k : Z) : Py.result Z :=
  if Z.abs k >? max_delta_days then Py.Raise Py.OverflowError
  else
    let o := today - k in
    if andb (1 <=? o) (o <=? max_ordinal) then Py.Ok o
    else Py.Raise Py.OverflowError.

End Datetime.

(* ===================================================================== *)
(** ** The data the tool exchanges *)
(* ===================================================================== *)

(** A news item as the search API or the fallback generator gives it: a
    dict with string values. *)
Abbreviation NewsItem := (gmap string string).

(** What [requests.post(...)], [raise_for_status()] and [response.json()]
    yield together: one of the three failures the [try] block catches, or
    the decoded JSON object, of which the tool reads the keys ["news"] and
    ["organic"]. *)
Module Serper.

Record payload : Type := Payload {
  news : option (list NewsItem);
  organic : option (list NewsItem)
}.

Inductive outcome : Type :=
| ConnectionError
| HTTPError (status : Z)
| JSONDecodeError
| Json (data : payload).

End Serper.

(** The world around one call: the calendar date [datetime.now()] falls
    on (as a proleptic Gregorian ordinal), the process environment, and
    the answer of the search API to a request with a given [X-API-KEY]
    header and query. *)
Record Env : Type := {
  today : Z;
  environ : gmap string string;
  post : option string -> string -> Serper.outcome
}.

Record ProcessedNews : Type := {
  headline : string;
  source : string;
  date : string;
  sentiment : string;
  sentiment_score : Q;
  url : string;
  snippet : string
}.

Record AnalystRatings : Type := {
  buy : Z;
  hold : Z;
  sell : Z
}.

Record SentimentReport : Type := {
  ticker : string;
  company_name : string;
  search_context : string;
  overall_sentiment_score : Q;
  sentiment_label : string;
  news_count : nat;
  social_media_mentions : Z;
  analyst_ratings : AnalystRatings;
  news_items : list ProcessedNews
}.

(** The tool object: its one field that the methods read. *)
Record Tool : Type := { serper_api_key : option string }.

(* ===================================================================== *)
(** ** stocksage/tools/sentiment_analysis_tool.py *)
(* ===================================================================== *)

Module StockSage.

(** [SentimentAnalysisTool.__init__]. *)
Definition init (env : Env) (serper_api_key : option string) : Tool :=
  {| serper_api_key :=
       match serper_api_key with
       | Some (String _ _) => serper_api_key
       | _ => environ env !! "SERPER_API_KEY"
       end |}.

Definition company_names : gmap string string :=
  list_to_map
    [ ("AAPL", "Apple Inc.");
      ("MSFT", "Microsoft Corporation");
      ("AMZN", "Amazon.com, Inc.");
      ("GOOGL", "Alphabet Inc. (Google)");
      ("META", "Meta Platforms, Inc.");
      ("TSLA", "Tesla, Inc.");
      ("NVDA", "NVIDIA Corporation");
      ("JPM", "JPMorgan Chase & Co.");
      ("V", "Visa Inc.");
      ("MA", "Mastercard Incorporated");
      ("PYPL", "PayPal Holdings, Inc.");
      ("DIS", "The Walt Disney Company");
      ("NFLX", "Netflix, Inc.");
      ("INTC", "Intel Corporation");
      ("AMD", "Advanced Micro Devices, Inc.");
      ("IBM", "International Business Machines Corporation");
      ("CSCO", "Cisco Systems, Inc.");
      ("ADBE", "Adobe Inc.");
      ("CRM", "Salesforce, Inc.");
      ("ORCL", "Oracle Corporation") ].

Definition get_company_name_for_ticker (ticker : string) : string :=
  if Py.has_key company_names ticker then Py.get company_names ticker ""
  else ticker +:+ " Corporation".

Definition company_info : gmap string (gmap string string) :=
  list_to_map
    [ ("AAPL", {[ "name" := "Apple Inc.";
                  "industry" := "Technology/Consumer Electronics" ]});
      ("MSFT", {[ "name" := "Microsoft Corporation";
                  "industry" := "Technology/Software" ]});
      ("AMZN", {[ "name" := "Amazon.com, Inc.";
                  "industry" := "E-commerce/Cloud Computing" ]});
      ("GOOGL", {[ "name" := "Alphabet Inc.";
                   "industry" := "Technology/Internet Services" ]});
      ("GOOG", {[ "name" := "Alphabet Inc.";
                  "industry" := "Technology/Internet Services" ]});
      ("META", {[ "name" := "Meta Platforms, Inc.";
                  "industry" := "Technology/Social Media" ]});
      ("TSLA", {[ "name" := "Tesla, Inc.";
                  "industry" := "Automotive/Clean Energy" ]});
      ("NVDA", {[ "name" := "NVIDIA Corporation";
                  "industry" := "Technology/Semiconductors" ]});
      ("JPM", {[ "name" := "JPMorgan Chase & Co.";
                 "industry" := "Financial Services" ]});
      ("V", {[ "name" := "Visa Inc.";
               "industry" := "Financial Services/Payments" ]}) ].

Definition sources : list string :=
  [ "Bloomberg"; "CNBC"; "Wall Street Journal"; "Reuters"; "Financial Times" ].

Definition get_fallback_news_data (ticker : string)
    (search_query : option string) : list NewsItem :=
  let company_name :=
    Py.get (Py.get company_info ticker ∅) "name" (ticker +:+ " Corporation") in
  let industry :=
    Py.get (Py.get company_info ticker ∅) "industry" "Technology" in
  (* [search_query and w in search_query.lower()] *)
  let asks (w : string) : bool :=
    match search_query with
    | Some q => Py.truthy search_query && Py.contains w (Py.lower q)
    | None => false
    end in
  let headlines :=
    if asks "product" then
      [ company_name +:+ " (" +:+ ticker +:+ ") Launches New Product Line to Strong Reviews";
        "Customer Satisfaction High for " +:+ company_name +:+ "'s (" +:+ ticker +:+ ") Latest Products";
        "Product Innovation Drives Growth at " +:+ company_name +:+ " (" +:+ ticker +:+ ")";
        "Market Reception Positive for " +:+ company_name +:+ "'s (" +:+ ticker +:+ ") Product Strategy";
        company_name +:+ " (" +:+ ticker +:+ ") Product Portfolio Expands in " +:+ industry +:+ " Sector" ]
    else if asks "ceo" || asks "leadership" then
      [ company_name +:+ " (" +:+ ticker +:+ ") CEO Outlines Vision for Company Growth";
        "Leadership Changes at " +:+ company_name +:+ " (" +:+ ticker +:+ ") Seen as Positive by Analysts";
        company_name +:+ " (" +:+ ticker +:+ ") Executive Team Receives Industry Recognition";
        "CEO of " +:+ company_name +:+ " (" +:+ ticker +:+ ") Speaks at Industry Conference on Innovation";
        "Leadership Strategy at " +:+ company_name +:+ " (" +:+ ticker +:+ ") Focuses on Sustainable Growth" ]
    else if asks "social" then
      [ company_name +:+ " (" +:+ ticker +:+ ") Trending on Social Media After Recent Announcement";
        "Social Media Sentiment Strong for " +:+ company_name +:+ " (" +:+ ticker +:+ ")";
        company_name +:+ " (" +:+ ticker +:+ ") Social Media Campaign Receives Positive Engagement";
        "Online Presence Growing for " +:+ company_name +:+ " (" +:+ ticker +:+ ") in " +:+ industry +:+ " Space";
        "Social Media Influencers Praise " +:+ company_name +:+ "'s (" +:+ ticker +:+ ") Latest Initiative" ]
    else
      [ company_name +:+ " (" +:+ ticker +:+ ") Reports Quarterly Earnings Above Expectations";
        "Analysts Raise Price Target for " +:+ company_name +:+ " (" +:+ ticker +:+ ") Citing Strong Growth";
        company_name +:+ " (" +:+ ticker +:+ ") Expands Market Share in " +:+ industry +:+ " Sector";
        "Market Trends Favorable for " +:+ company_name +:+ " (" +:+ ticker +:+ ") This Quarter";
        "Investors React to " +:+ company_name +:+ "'s (" +:+ ticker +:+ ") Latest Strategic Announcements" ] in
  imap
    (fun (i : nat) (headline : string) =>
       let snippet_theme :=
         Py.if_truthy search_query (industry +:+ " business strategy") in
       ({[ "title" := headline;
           "snippet" :=
             company_name +:+ " (" +:+ ticker
             +:+ ") shows promising developments in its " +:+ snippet_theme
             +:+ " with recent announcements and growing market presence.";
           "source" := nth (i mod length sources)%nat sources "";
           "link" :=
             "https://finance.example.com/" +:+ Py.lower ticker
             +:+ "/news/" +:+ Py.str_of_int (Z.of_nat i) ]} : NewsItem))
    headlines.

(** The local [query] of [fetch_stock_news]. *)
Definition query (ticker : string) (search_query : option string) : string :=
  let company_name := get_company_name_for_ticker ticker in
  match search_query with
  | Some (String _ _ as q) => company_name +:+ " (" +:+ ticker +:+ ") " +:+ q
  | _ => ticker +:+ " stock financial news analysis"
  end.

Definition fetch_stock_news (self : Tool) (env : Env) (ticker : string)
    (search_query : option string) : list NewsItem :=
  match post env (serper_api_key self) (query ticker search_query) with
  | Serper.Json data =>
      let news_items := default [] (Serper.news data) in
      match news_items, Serper.organic data with
      | [], Some organic =>
          filter (fun item : NewsItem => Py.has_key item "snippet" = true) organic
      | _, _ => news_items
      end
  | _ =>
      (* except Exception: the deterministic fallback data *)
      get_fallback_news_data ticker search_query
  end.

(** The local [days_back] of [get_deterministic_date]. *)
Definition days_back (ticker headline : string) (days : Z) : Py.result Z :=
  let hash_value := Hashlib.md5_int (ticker +:+ headline) in
  r ← Py.int_mod hash_value days;
  mret (r + 1).

Definition get_deterministic_date (env : Env) (ticker headline : string)
    (days : Z) : Py.result string :=
  back ← days_back ticker headline days;
  date ← Datetime.minus_days (today env) back;
  mret (Datetime.strftime_ymd date).

Definition get_deterministic_social_media_mentions (ticker : string)
    (news_count : Z) : Z :=
  let ticker_hash := Hashlib.md5_int ticker in
  let base_mentions := ticker_hash mod 5000 + 1000 in
  let news_factor := Py.max 1 (Py.true_div news_count 2) in
  Py.int_of_float (Py.float_of_int base_mentions * news_factor)%Q.

Definition get_deterministic_analyst_ratings (sentiment_score : Q)
    : AnalystRatings :=
  let scaled_sentiment := Py.int_of_float ((sentiment_score + 1) * 50)%Q in
  let buy_ratio := Py.true_div scaled_sentiment 100 in
  let sell_ratio := Py.true_div (100 - scaled_sentiment) 100 in
  let hold_ratio := (1 - Py.abs sentiment_score / 2)%Q in
  let total_analysts := 25%Q in
  {| buy := Py.int_of_float (total_analysts * buy_ratio)%Q;
     hold := Py.int_of_float (total_analysts * hold_ratio)%Q;
     sell := Py.int_of_float (total_analysts * sell_ratio)%Q |}.

(** The local [adjustment] of [get_deterministic_sentiment]. *)
Definition adjustment (text seed : string) : Q :=
  let hash_value := Hashlib.md5_int (text +:+ seed) in
  Py.true_div (hash_value mod 20 - 10) 100.

Section WithTextBlob.

(** [TextBlob(text).sentiment.polarity]. *)
Variable polarity : string -> Q.

Definition get_deterministic_sentiment (text seed : string) : Q :=
  let sentiment := polarity text in
  Py.max (Py.min (sentiment + adjustment text seed)%Q 1) (-1).

(** The body of the [for item in ...] loop of [_run]; the loop assigns
    [processed_news] and [total_sentiment_score]. *)
Definition score_item (env : Env) (ticker : string) (days : Z)
    (acc : list ProcessedNews * Q) (item : NewsItem)
    : Py.result (list ProcessedNews * Q) :=
  let '(processed_news, total_sentiment_score) := acc in
  let text := Py.get item "title" "" +:+ " " +:+ Py.get item "snippet" "" in
  let sentiment_score := get_deterministic_sentiment text ticker in
  let sentiment_label :=
    if Py.ltb (1 # 10) sentiment_score then "positive"
    else if Py.ltb sentiment_score (- (1 # 10)) then "negative"
    else "neutral" in
  let total_sentiment_score := (total_sentiment_score + sentiment_score)%Q in
  date ← get_deterministic_date env ticker (Py.get item "title" "") days;
  mret ((processed_news ++
          [ {| headline := Py.get item "title" "No title";
               source := Py.get item "source" "Unknown";
               date := date;
               sentiment := sentiment_label;
               sentiment_score := Py.round2 sentiment_score;
               url := Py.get item "link" "";
               snippet := Py.get item "snippet" "No content available" |} ])%list,
        total_sentiment_score).

Definition _run (self : Tool) (env : Env) (ticker : string) (days : Z)
    (search_query : option string) : Py.result SentimentReport :=
  let news_items := fetch_stock_news self env ticker search_query in
  '(processed_news, total_sentiment_score) ←
    Py.for_each (score_item env ticker days)
      (take (Nat.min (length news_items) 10) news_items) ([], 0%Q);
  let overall_sentiment_score :=
    match processed_news with
    | _ :: _ =>
        Py.round2 (total_sentiment_score
                   / Py.float_of_int (Z.of_nat (length processed_news)))%Q
    | [] => get_deterministic_sentiment ticker "fallback"
    end in
  let sentiment_label :=
    if Py.ltb (3 # 10) overall_sentiment_score then "Bullish"
    else if Py.ltb overall_sentiment_score (- (3 # 10)) then "Bearish"
    else "Neutral" in
  let social_media_mentions :=
    get_deterministic_social_media_mentions ticker
      (Z.of_nat (length processed_news)) in
  let analyst_ratings :=
    get_deterministic_analyst_ratings overall_sentiment_score in
  let company_name := get_company_name_for_ticker ticker in
  let search_context :=
    Py.if_truthy search_query (ticker +:+ " stock financial news analysis") in
  mret {| ticker := ticker;
          company_name := company_name;
          search_context := search_context;
          overall_sentiment_score := overall_sentiment_score;
          sentiment_label := sentiment_label;
          news_count := length processed_news;
          social_media_mentions := social_media_mentions;
          analyst_ratings := analyst_ratings;
          news_items := processed_news |}.

End WithTextBlob.

End StockSage.

(* ===================================================================== *)
(** ** tradesymphony/tools/finance_tools.py: [SentimentAnalysisTool] *)
(* ===================================================================== *)

Module TradeSymphony.

(** [SentimentAnalysisTool.__init__]. *)
Definition init (env : Env) (serper_api_key : option string) : Tool :=
  {| serper_api_key :=
       match serper_api_key with
       | Some (String _ _) => serper_api_key
       | _ =>
           Some (Py.get (environ env) "SERPER_API_KEY"
                   "07daa2a1ac1b71274fc9fc1f32987bb588d5c0e4")
       end |}.

Definition company_names : gmap string string :=
  list_to_map
    [ ("AAPL", "Apple Inc.");
      ("MSFT", "Microsoft Corporation");
      ("AMZN", "Amazon.com, Inc.");
      ("GOOGL", "Alphabet Inc. (Google)");
      ("META", "Meta Platforms, Inc.");
      ("TSLA", "Tesla, Inc.");
      ("NVDA", "NVIDIA Corporation");
      ("JPM", "JPMorgan Chase & Co.");
      ("V", "Visa Inc.");
      ("MA", "Mastercard Incorporated");
      ("PYPL", "PayPal Holdings, Inc.");
      ("DIS", "The Walt Disney Company");
      ("NFLX", "Netflix, Inc.");
      ("INTC", "Intel Corporation");
      ("AMD", "Advanced Micro Devices, Inc.");
      ("IBM", "International Business Machines Corporation");
      ("CSCO", "Cisco Systems, Inc.");
      ("ADBE", "Adobe Inc.");
      ("CRM", "Salesforce, Inc.");
      ("ORCL", "Oracle Corporation") ].

Definition get_company_name_for_ticker (ticker : string) : string :=
  if Py.has_key company_names ticker then Py.get company_names ticker ""
  else ticker +:+ " Corporation".

Definition company_info : gmap string (gmap string string) :=
  list_to_map
    [ ("AAPL", {[ "name" := "Apple Inc.";
                  "industry" := "Technology/Consumer Electronics" ]});
      ("MSFT", {[ "name" := "Microsoft Corporation";
                  "industry" := "Technology/Software" ]});
      ("AMZN", {[ "name" := "Amazon.com, Inc.";
                  "industry" := "E-commerce/Cloud Computing" ]});
      ("GOOGL", {[ "name" := "Alphabet Inc.";
                   "industry" := "Technology/Internet Services" ]});
      ("GOOG", {[ "name" := "Alphabet Inc.";
                  "industry" := "Technology/Internet Services" ]});
      ("META", {[ "name" := "Meta Platforms, Inc.";
                  "industry" := "Technology/Social Media" ]});
      ("TSLA", {[ "name" := "Tesla, Inc.";
                  "industry" := "Automotive/Clean Energy" ]});
      ("NVDA", {[ "name" := "NVIDIA Corporation";
                  "industry" := "Technology/Semiconductors" ]});
      ("JPM", {[ "name" := "JPMorgan Chase & Co.";
                 "industry" := "Financial Services" ]});
      ("V", {[ "name" := "Visa Inc.";
               "industry" := "Financial Services/Payments" ]}) ].

Definition sources : list string :=
  [ "Bloomberg"; "CNBC"; "Wall Street Journal"; "Reuters"; "Financial Times" ].

Definition get_fallback_news_data (ticker : string)
    (search_query : option string) : list NewsItem :=
  let company_name :=
    Py.get (Py.get company_info ticker ∅) "name" (ticker +:+ " Corporation") in
  let industry :=
    Py.get (Py.get company_info ticker ∅) "industry" "Technology" in
  (* [search_query and w in search_query.lower()] *)
  let asks (w : string) : bool :=
    match search_query with
    | Some q => Py.truthy search_query && Py.contains w (Py.lower q)
    | None => false
    end in
  let headlines :=
    if asks "product" then
      [ company_name +:+ " (" +:+ ticker +:+ ") Launches New Product Line to Strong Reviews";
        "Customer Satisfaction High for " +:+ company_name +:+ "'s (" +:+ ticker +:+ ") Latest Products";
        "Product Innovation Drives Growth at " +:+ company_name +:+ " (" +:+ ticker +:+ ")";
        "Market Reception Positive for " +:+ company_name +:+ "'s (" +:+ ticker +:+ ") Product Strategy";
        company_name +:+ " (" +:+ ticker +:+ ") Product Portfolio Expands in " +:+ industry +:+ " Sector" ]
    else if asks "ceo" || asks "leadership" then
      [ company_name +:+ " (" +:+ ticker +:+ ") CEO Outlines Vision for Company Growth";
        "Leadership Changes at " +:+ company_name +:+ " (" +:+ ticker +:+ ") Seen as Positive by Analysts";
        company_name +:+ " (" +:+ ticker +:+ ") Executive Team Receives Industry Recognition";
        "CEO of " +:+ company_name +:+ " (" +:+ ticker +:+ ") Speaks at Industry Conference on Innovation";
        "Leadership Strategy at " +:+ company_name +:+ " (" +:+ ticker +:+ ") Focuses on Sustainable Growth" ]
    else if asks "social" then
      [ company_name +:+ " (" +:+ ticker +:+ ") Trending on Social Media After Recent Announcement";
        "Social Media Sentiment Strong for " +:+ company_name +:+ " (" +:+ ticker +:+ ")";
        company_name +:+ " (" +:+ ticker +:+ ") Social Media Campaign Receives Positive Engagement";
        "Online Presence Growing for " +:+ company_name +:+ " (" +:+ ticker +:+ ") in " +:+ industry +:+ " Space";
        "Social Media Influencers Praise " +:+ company_name +:+ "'s (" +:+ ticker +:+ ") Latest Initiative" ]
    else
      [ company_name +:+ " (" +:+ ticker +:+ ") Reports Quarterly Earnings Above Expectations";
        "Analysts Raise Price Target for " +:+ company_name +:+ " (" +:+ ticker +:+ ") Citing Strong Growth";
        company_name +:+ " (" +:+ ticker +:+ ") Expands Market Share in " +:+ industry +:+ " Sector";
        "Market Trends Favorable for " +:+ company_name +:+ " (" +:+ ticker +:+ ") This Quarter";
        "Investors React to " +:+ company_name +:+ "'s (" +:+ ticker +:+ ") Latest Strategic Announcements" ] in
  (* assigned and never read *)
  let search_context :=
    if negb (Py.truthy search_query) then "financial performance"
    else Py.lower (default "" search_query) in
  imap
    (fun (i : nat) (headline : string) =>
       let snippet_theme :=
         Py.if_truthy search_query (industry +:+ " business strategy") in
       ({[ "title" := headline;
           "snippet" :=
             company_name +:+ " (" +:+ ticker
             +:+ ") shows promising developments in its " +:+ snippet_theme
             +:+ " with recent announcements and growing market presence.";
           "source" := nth (i mod length sources)%nat sources "";
           "link" :=
             "https://finance.example.com/" +:+ Py.lower ticker
             +:+ "/news/" +:+ Py.str_of_int (Z.of_nat i) ]} : NewsItem))
    headlines.

(** The local [query] of [fetch_stock_news]. *)
Definition query (ticker : string) (search_query : option string) : string :=
  let company_name := get_company_name_for_ticker ticker in
  match search_query with
  | Some (String _ _ as q) => company_name +:+ " (" +:+ ticker +:+ ") " +:+ q
  | _ => ticker +:+ " stock financial news analysis"
  end.

Definition fetch_stock_news (self : Tool) (env : Env) (ticker : string)
    (search_query : option string) : list NewsItem :=
  match post env (serper_api_key self) (query ticker search_query) with
  | Serper.Json data =>
      let news_items := default [] (Serper.news data) in
      match news_items, Serper.organic data with
      | [], Some organic =>
          filter (fun item : NewsItem => Py.has_key item "snippet" = true) organic
      | _, _ => news_items
      end
  | _ =>
      (* except Exception: the deterministic fallback data *)
      get_fallback_news_data ticker search_query
  end.

(** The local [days_back] of [get_deterministic_date]. *)
Definition days_back (ticker headline : string) (days : Z) : Py.result Z :=
  let hash_value := Hashlib.md5_int (ticker +:+ headline) in
  r ← Py.int_mod hash_value days;
  mret (r + 1).

Definition get_deterministic_date (env : Env) (ticker headline : string)
    (days : Z) : Py.result string :=
  back ← days_back ticker headline days;
  date ← Datetime.minus_days (today env) back;
  mret (Datetime.strftime_ymd date).

Definition get_deterministic_social_media_mentions (ticker : string)
    (news_count : Z) : Z :=
  let ticker_hash := Hashlib.md5_int ticker in
  let base_mentions := ticker_hash mod 5000 + 1000 in
  let news_factor := Py.max 1 (Py.true_div news_count 2) in
  Py.int_of_float (Py.float_of_int base_mentions * news_factor)%Q.

Definition get_deterministic_analyst_ratings (sentiment_score : Q)
    : AnalystRatings :=
  let scaled_sentiment := Py.int_of_float ((sentiment_score + 1) * 50)%Q in
  let buy_ratio := Py.true_div scaled_sentiment 100 in
  let sell_ratio := Py.true_div (100 - scaled_sentiment) 100 in
  let hold_ratio := (1 - Py.abs sentiment_score / 2)%Q in
  let total_analysts := 25%Q in
  {| buy := Py.int_of_float (total_analysts * buy_ratio)%Q;
     hold := Py.int_of_float (total_analysts * hold_ratio)%Q;
     sell := Py.int_of_float (total_analysts * sell_ratio)%Q |}.

(** The local [adjustment] of [get_deterministic_sentiment]. *)
Definition adjustment (text seed : string) : Q :=
  let hash_value := Hashlib.md5_int (text +:+ seed) in
  Py.true_div (hash_value mod 20 - 10) 100.

Section WithTextBlob.

(** [TextBlob(text).sentiment.polarity]. *)
Variable polarity : string -> Q.

Definition get_deterministic_sentiment (text seed : string) : Q :=
  let sentiment := polarity text in
  Py.max (Py.min (sentiment + adjustment text seed)%Q 1) (-1).

(** The body of the [for item in ...] loop of [_run]; the loop assigns
    [processed_news] and [total_sentiment_score]. *)
Definition score_item (env : Env) (ticker : string) (days : Z)
    (acc : list ProcessedNews * Q) (item : NewsItem)
    : Py.result (list ProcessedNews * Q) :=
  let '(processed_news, total_sentiment_score) := acc in
  let text := Py.get item "title" "" +:+ " " +:+ Py.get item "snippet" "" in
  let sentiment_score := get_deterministic_sentiment text ticker in
  let sentiment_label :=
    if Py.ltb (1 # 10) sentiment_score then "positive"
    else if Py.ltb sentiment_score (- (1 # 10)) then "negative"
    else "neutral" in
  let total_sentiment_score := (total_sentiment_score + sentiment_score)%Q in
  date ← get_deterministic_date env ticker (Py.get item "title" "") days;
  mret ((processed_news ++
          [ {| headline := Py.get item "title" "No title";
               source := Py.get item "source" "Unknown";
               date := date;
               sentiment := sentiment_label;
               sentiment_score := Py.round2 sentiment_score;
               url := Py.get item "link" "";
               snippet := Py.get item "snippet" "No content available" |} ])%list,
        total_sentiment_score).

Definition _run (self : Tool) (env : Env) (ticker : string) (days : Z)
    (search_query : option string) : Py.result SentimentReport :=
  let news_items := fetch_stock_news self env ticker search_query in
  '(processed_news, total_sentiment_score) ←
    Py.for_each (score_item env ticker days)
      (take (Nat.min (length news_items) 10) news_items) ([], 0%Q);
  let overall_sentiment_score :=
    match processed_news with
    | _ :: _ =>
        Py.round2 (total_sentiment_score
                   / Py.float_of_int (Z.of_nat (length processed_news)))%Q
    | [] => get_deterministic_sentiment ticker "fallback"
    end in
  let sentiment_label :=
    if Py.ltb (3 # 10) overall_sentiment_score then "Bullish"
    else if Py.ltb overall_sentiment_score (- (3 # 10)) then "Bearish"
    else "Neutral" in
  let social_media_mentions :=
    get_deterministic_social_media_mentions ticker
      (Z.of_nat (length processed_news)) in
  let analyst_ratings :=
    get_deterministic_analyst_ratings overall_sentiment_score in
  let company_name := get_company_name_for_ticker ticker in
  let search_context :=
    Py.if_truthy search_query (ticker +:+ " stock financial news analysis") in
  mret {| ticker := ticker;
          company_name := company_name;
          search_context := search_context;
          overall_sentiment_score := overall_sentiment_score;
          sentiment_label := sentiment_label;
          news_count := length processed_news;
          social_media_mentions := social_media_mentions;
          analyst_ratings := analyst_ratings;
          news_items := processed_news |}.

End WithTextBlob.

End TradeSymphony.

(* ===================================================================== *)
(** ** tradesymphony/tools/finance_tools.py: [AlphaVantageTool] *)
(* ===================================================================== *)

(** The module [random]: a generator state of some type [G], from which
    [random.random()] draws a float and [Random._randbelow(n)] an index,
    each returning the next state. *)
Module Random.

Section Generator.

Variable G : Type.
Variable random : G -> Q * G.
Variable randbelow : nat -> G -> nat * G.

(** [random.uniform(a, b)] is [a + (b - a) * self.random()]. *)
Definition uniform (a b : Q) (g : G) : Q * G :=
  let '(u, g) := random g in
  ((a + (b - a) * u)%Q, g).

(** [random.choice(seq)] is [seq[self._randbelow(len(seq))]]. *)
Definition choice (seq : list string) (g : G) : string * G :=
  let '(i, g) := randbelow (length seq) g in
  (nth i seq "", g).

End Generator.

End Random.

Module AlphaVantage.

Record Candle : Type := {
  open : Q;
  high : Q;
  low : Q;
  close : Q;
  volume : Z
}.

Record Overview : Type := {
  Sector : string;
  Industry : string;
  MarketCap : Q;
  EBITDA : Q;
  PERatio : Q;
  DividendYield : string;
  Week52High : Q;
  Week52Low : Q;
  MA50Day : Q;
  MA200Day : Q;
  AnalystTargetPrice : Q
}.

(** The three dicts [_run] can return. *)
Inductive result : Type :=
| TimeSeries (ticker function : string) (data : list (string * Candle))
| CompanyOverview (ticker function : string) (overview : Overview)
| NotImplemented (ticker function message : string).

(** [str(x)] for a float [x = k / 100] with [k >= 0], as [round(., 2)]
    yields it: at least one and at most two decimals. *)
Definition str_of_hundredths (k : Z) : string :=
  let whole := Py.str_of_int (k / 100) in
  let frac := k mod 100 in
  if frac mod 10 =? 0 then whole +:+ "." +:+ Py.str_of_int (frac / 10)
  else whole +:+ "." +:+ Datetime.two_digits frac.

Section WithRandom.

Variable G : Type.
Variable random : G -> Q * G.
Variable randbelow : nat -> G -> nat * G.

(** The value dict of one day of the comprehension of [_run]. *)
Definition candle (g : G) : Candle * G :=
  let '(o, g) := Random.uniform G random 100 110 g in
  let '(h, g) := Random.uniform G random 110 120 g in
  let '(l, g) := Random.uniform G random 90 100 g in
  let '(c, g) := Random.uniform G random 100 110 g in
  let '(v, g) := Random.uniform G random 1000000 5000000 g in
  ({| open := Py.round2 o;
      high := Py.round2 h;
      low := Py.round2 l;
      close := Py.round2 c;
      volume := Py.round_half_even v |}, g).

(** The dict comprehension [{f"2025-03-{i:02d}": {...} for i in ...}]. *)
Fixpoint days (range : list Z) (g : G) : list (string * Candle) * G :=
  match range with
  | [] => ([], g)
  | i :: rest =>
      let '(c, g) := candle g in
      let '(data, g) := days rest g in
      (("2025-03-" +:+ Datetime.two_digits i, c) :: data, g)
  end.

Definition overview (g : G) : Overview * G :=
  let '(sector, g) :=
    Random.choice G randbelow
      [ "Technology"; "Healthcare"; "Finance"; "Consumer"; "Energy" ] g in
  let '(industry, g) :=
    Random.choice G randbelow
      [ "Software"; "Pharmaceuticals"; "Banking"; "Retail"; "Oil & Gas" ] g in
  let '(market_cap, g) := Random.uniform G random 1000000000 1000000000000 g in
  let '(ebitda, g) := Random.uniform G random 100000000 10000000000 g in
  let '(pe, g) := Random.uniform G random 5 50 g in
  let '(dividend, g) := Random.uniform G random 0 5 g in
  let '(high52, g) := Random.uniform G random 100 500 g in
  let '(low52, g) := Random.uniform G random 50 100 g in
  let '(ma50, g) := Random.uniform G random 100 300 g in
  let '(ma200, g) := Random.uniform G random 100 300 g in
  let '(target, g) := Random.uniform G random 100 500 g in
  ({| Sector := sector;
      Industry := industry;
      MarketCap := Py.round2 market_cap;
      EBITDA := Py.round2 ebitda;
      PERatio := Py.round2 pe;
      DividendYield :=
        str_of_hundredths (Py.round_half_even (dividend * 100)) +:+ "%";
      Week52High := Py.round2 high52;
      Week52Low := Py.round2 low52;
      MA50Day := Py.round2 ma50;
      MA200Day := Py.round2 ma200;
      AnalystTargetPrice := Py.round2 target |}, g).

Definition _run (ticker function : string) (g : G) : result * G :=
  if String.eqb function "TIME_SERIES_DAILY" then
    let '(data, g) := days [1; 2; 3; 4; 5] g in
    (TimeSeries ticker function data, g)
  else if String.eqb function "OVERVIEW" then
    let '(o, g) := overview g in
    (CompanyOverview ticker function o, g)
  else
    (NotImplemented ticker function "Function not implemented in dummy data", g).

End WithRandom.

End AlphaVantage.

(** A generator for running the dummy tool on concrete inputs: the
    state is a counter, the float drawn is its last decimal digit over
    ten, the index drawn is the counter reduced modulo the bound. *)
Definition counter_random (g : nat) : Q * nat :=
  (Z.of_nat (g mod 10) # 10, S g).

Definition counter_randbelow (n : nat) (g : nat) : nat * nat :=
  ((g mod n)%nat, S g).

(** What the library promises of a generator: [random()] lies in
    [0, 1) and [_randbelow(n)] below [n]. *)
Definition unit_random (G : Type) (random : G -> Q * G) : Prop :=
  forall g, (0 <= fst (random g) < 1)%Q.

Definition index_randbelow (G : Type) (randbelow : nat -> G -> nat * G) : Prop :=
  forall n g, (0 < n)%nat -> (fst (randbelow n g) < n)%nat.

(** A day's prices that can have been traded: open and close between
    low and high. *)
Definition consistent_candle (c : AlphaVantage.Candle) : Prop :=
  (AlphaVantage.low c <= AlphaVantage.open c <= AlphaVantage.high c)%Q
  /\ (AlphaVantage.low c <= AlphaVantage.close c <= AlphaVantage.high c)%Q
  /\ (90 <= AlphaVantage.low c)%Q
  /\ (AlphaVantage.high c <= 120)%Q
  /\ 1000000 <= AlphaVantage.volume c <= 5000000.

Definition plausible_overview (o : AlphaVantage.Overview) : Prop :=
  In (AlphaVantage.Sector o)
     [ "Technology"; "Healthcare"; "Finance"; "Consumer"; "Energy" ]
  /\ In (AlphaVantage.Industry o)
        [ "Software"; "Pharmaceuticals"; "Banking"; "Retail"; "Oil & Gas" ]
  /\ (50 <= AlphaVantage.Week52Low o <= 100)%Q
  /\ (100 <= AlphaVantage.Week52High o <= 500)%Q
  /\ (100 <= AlphaVantage.MA50Day o <= 300)%Q
  /\ (100 <= AlphaVantage.MA200Day o <= 300)%Q
  /\ (100 <= AlphaVantage.AnalystTargetPrice o <= 500)%Q
  /\ (5 <= AlphaVantage.PERatio o <= 50)%Q
  /\ (1000000000 <= AlphaVantage.MarketCap o <= 1000000000000)%Q
  /\ (100000000 <= AlphaVantage.EBITDA o <= 10000000000)%Q
  /\ (exists k, 0 <= k <= 500
        /\ AlphaVantage.DividendYield o
           = AlphaVantage.str_of_hundredths k +:+ "%").

(* ===================================================================== *)
(** ** Vocabulary of the statements *)
(* ===================================================================== *)

(** The request did not yield a decoded JSON object: [requests.post],
    [raise_for_status] or [response.json] raised. *)
Definition fetch_failed (o : Serper.outcome) : Prop :=
  match o with
  | Serper.Json _ => False
  | _ => True
  end.

(** No network access: every request raises a connection error. *)
Definition no_network (env : Env) : Prop :=
  forall key q, post env key q = Serper.ConnectionError.

(** Every date [get_deterministic_date] can reach from today with this
    [days] lies in years 1..9999: the offsets range over 1..days when
    [days] is positive and over days+2..1 when it is negative. *)
Definition in_calendar (env : Env) (days : Z) : Prop :=
  1 <= today env - Z.max days 1
  /\ today env - Z.min (days + 2) 1 <= Datetime.max_ordinal.

(** The text [_run] scores for an item: title, a space, snippet. *)
Definition item_text (item : NewsItem) : string :=
  Py.get item "title" "" +:+ " " +:+ Py.get item "snippet" "".

(** The items [_run] iterates over: the first ten of the fetched ones. *)
Definition first_ten (fetched : list NewsItem) : list NewsItem :=
  take (Nat.min (length fetched) 10) fetched.

(** The two conditional label assignments of [_run]. *)
Definition item_label (score : Q) : string :=
  if Py.ltb (1 # 10) score then "positive"
  else if Py.ltb score (- (1 # 10)) then "negative"
  else "neutral".

Definition overall_label (score : Q) : string :=
  if Py.ltb (3 # 10) score then "Bullish"
  else if Py.ltb score (- (3 # 10)) then "Bearish"
  else "Neutral".

(** A label rule in the words of the specification: strictly above the
    threshold [t], strictly below [-t], and everything in between. *)
Definition follows_thresholds (t : Q) (above below between : string)
    (score : Q) (label : string) : Prop :=
  ((t < score)%Q -> label = above)
  /\ ((score < - t)%Q -> label = below)
  /\ ((- t <= score <= t)%Q -> label = between).

(** The mean of a sequence of scores, summed in sequence order. *)
Definition mean (scores : list Q) : Q :=
  (fold_left Qplus scores 0 / inject_Z (Z.of_nat (length scores)))%Q.

(** The ratings formula in the words of the specification: every bucket
    is the floor of 25 times its own ratio. *)
Definition analyst_ratings_spec (sentiment_score : Q) : AnalystRatings :=
  let scaled := Qfloor ((sentiment_score + 1) * 50) in
  let buy_ratio := (scaled # 100)%Q in
  let sell_ratio := ((100 - scaled) # 100)%Q in
  let hold_ratio := (1 - Qabs sentiment_score / 2)%Q in
  {| buy := Qfloor (25 * buy_ratio);
     hold := Qfloor (25 * hold_ratio);
     sell := Qfloor (25 * sell_ratio) |}.

(** The shape of a report and of its items (data model of the
    specification). *)
Definition well_shaped_item (p : ProcessedNews) : Prop :=
  (sentiment p = "positive" \/ sentiment p = "negative" \/ sentiment p = "neutral")
  /\ (-1 <= sentiment_score p <= 1)%Q.

Definition well_shaped (r : SentimentReport) : Prop :=
  (-1 <= overall_sentiment_score r <= 1)%Q
  /\ (sentiment_label r = "Bullish" \/ sentiment_label r = "Bearish"
      \/ sentiment_label r = "Neutral")
  /\ news_count r = length (news_items r)
  /\ 0 <= social_media_mentions r
  /\ 0 <= buy (analyst_ratings r)
  /\ 0 <= hold (analyst_ratings r)
  /\ 0 <= sell (analyst_ratings r)
  /\ Forall well_shaped_item (news_items r).

(** An item of the report is the image of a fetched item. *)
Definition processed_from (polarity : string -> Q) (env : Env)
    (ticker : string) (days : Z) (item : NewsItem) (p : ProcessedNews) : Prop :=
  let score := StockSage.get_deterministic_sentiment polarity (item_text item) ticker in
  headline p = Py.get item "title" "No title"
  /\ source p = Py.get item "source" "Unknown"
  /\ StockSage.get_deterministic_date env ticker (Py.get item "title" "") days
     = Py.Ok (date p)
  /\ sentiment p = item_label score
  /\ sentiment_score p = Py.round2 score
  /\ url p = Py.get item "link" ""
  /\ snippet p = Py.get item "snippet" "No content available".

(** An item, and a report, with the date strings blanked. *)
Definition blank_date (p : ProcessedNews) : ProcessedNews :=
  {| headline := headline p;
     source := source p;
     date := "";
     sentiment := sentiment p;
     sentiment_score := sentiment_score p;
     url := url p;
     snippet := snippet p |}.

Definition without_dates (r : SentimentReport) : SentimentReport :=
  {| ticker := ticker r;
     company_name := company_name r;
     search_context := search_context r;
     overall_sentiment_score := overall_sentiment_score r;
     sentiment_label := sentiment_label r;
     news_count := news_count r;
     social_media_mentions := social_media_mentions r;
     analyst_ratings := analyst_ratings r;
     news_items := map blank_date (news_items r) |}.

(** Worlds and stand-ins used to run the tool on concrete inputs: a
    machine without network on the day of ordinal [day], a search API
    that answers every request with the same news list, and a sentiment
    estimator that finds every text neutral. *)
Definition offline (day : Z) : Env :=
  {| today := day; environ := ∅; post := fun _ _ => Serper.ConnectionError |}.

Definition online (day : Z) (news : list NewsItem) : Env :=
  {| today := day;
     environ := {[ "SERPER_API_KEY" := "key" ]};
     post := fun _ _ => Serper.Json (Serper.Payload (Some news) None) |}.

Definition neutral_polarity : string -> Q := fun _ => 0%Q.

(** An estimator under which every item of ticker [ticker] scores 0.3. *)
Definition boundary_polarity (ticker : string) : string -> Q :=
  fun text => ((3 # 10) - StockSage.adjustment text ticker)%Q.

(** A news list of [n] items titled by their position. *)
Definition numbered_news (n : nat) : list NewsItem :=
  map (fun i => ({[ "title" := "Item " +:+ Py.str_of_int (Z.of_nat i);
                    "snippet" := "text" ]} : NewsItem))
      (seq 0 n).

(** The locals [company_name] and [industry] of
    [get_fallback_news_data]. *)
Definition fallback_company_name (ticker : string) : string :=
  Py.get (Py.get StockSage.company_info ticker ∅) "name" (ticker +:+ " Corporation").

Definition fallback_industry (ticker : string) : string :=
  Py.get (Py.get StockSage.company_info ticker ∅) "industry" "Technology".

(** The test [search_query and w in search_query.lower()] that selects
    the headline templates. *)
Definition asks (search_query : option string) (w : string) : bool :=
  match search_query with
  | Some q => Py.truthy search_query && Py.contains w (Py.lower q)
  | None => false
  end.

(** The branch of the if/elif chain of [get_fallback_news_data] that a
    query selects: 0 product, 1 leadership, 2 social media, 3 the default
    financial headlines. *)
Definition topic (search_query : option string) : nat :=
  if asks search_query "product" then 0
  else if asks search_query "ceo" || asks search_query "leadership" then 1
  else if asks search_query "social" then 2
  else 3.

(** The headlines of the fallback news. *)
Definition fallback_titles (ticker : string) (search_query : option string)
    : list string :=
  map (fun item : NewsItem => Py.get item "title" "")
      (StockSage.get_fallback_news_data ticker search_query).

(** The dict the loop of [get_fallback_news_data] appends for the
    headline at position [i]. *)
Definition fallback_item (ticker : string) (search_query : option string)
    (i : nat) (headline : string) : NewsItem :=
  {[ "title" := headline;
     "snippet" :=
       fallback_company_name ticker +:+ " (" +:+ ticker
       +:+ ") shows promising developments in its "
       +:+ Py.if_truthy search_query (fallback_industry ticker +:+ " business strategy")
       +:+ " with recent announcements and growing market presence.";
     "source" := nth (i mod 5)%nat StockSage.sources "";
     "link" :=
       "https://finance.example.com/" +:+ Py.lower ticker
       +:+ "/news/" +:+ Py.str_of_int (Z.of_nat i) ]}.

(* ===================================================================== *)
(** ** Lemmas on the runtime *)
(* ===================================================================== *)

(** The test suite of RFC 1321 (inputs of one and of two blocks). *)
Example md5_rfc1321 :
  Hashlib.md5_int "" = 0xd41d8cd98f00b204e9800998ecf8427e
  /\ Hashlib.md5_int "a" = 0x0cc175b9c0f1b6a831c399e269772661
  /\ Hashlib.md5_int "abc" = 0x900150983cd24fb0d6963f7d28e17f72
  /\ Hashlib.md5_int "message digest" = 0xf96b697d7cb7938d525a2f31aaf161d0
  /\ Hashlib.md5_int "abcdefghijklmnopqrstuvwxyz" = 0xc3fcd3d76192e4007dfb496cca67e13b
  /\ Hashlib.md5_int
       "ABCDEFGHIJKLMNOPQRSTUVWXYZabcdefghijklmnopqrstuvwxyz0123456789"
     = 0xd174ab98d277d9f5a5611c2c9f419d9f
  /\ Hashlib.md5_int
       "12345678901234567890123456789012345678901234567890123456789012345678901234567890"
     = 0x57edf4a22be3c955ac49da2e2107b67a.
Proof. repeat split; vm_compute; reflexivity. Qed.

Example strftime_ymd_samples :
  map Datetime.strftime_ymd [ 730120; 730179; 730180; 739923; 3652059 ]
  = [ "2000-01-01"; "2000-02-29"; "2000-03-01"; "2026-11-03"; "9999-12-31" ].
Proof. vm_compute. reflexivity. Qed.

Lemma ltb_lt (x y : Q) : Py.ltb x y = true <-> (x < y)%Q.
Proof.
  unfold Py.ltb. rewrite negb_true_iff.
  destruct (Qle_bool y x) eqn:E.
  - apply Qle_bool_iff in E. split; [discriminate | intros H; exfalso; lra].
  - split; [intros _ | reflexivity].
    apply Qnot_le_lt. intros H. apply Qle_bool_iff in H. congruence.
Qed.

Lemma ltb_ge (x y : Q) : Py.ltb x y = false <-> (y <= x)%Q.
Proof.
  unfold Py.ltb. rewrite negb_false_iff. apply Qle_bool_iff.
Qed.

Lemma for_each_ext {A S : Type} (f g : S -> A -> Py.result S) (xs : list A) :
  (forall acc x, f acc x = g acc x) ->
  forall acc, Py.for_each f xs acc = Py.for_each g xs acc.
Proof.
  intros Hfg. induction xs as [|x xs IH]; intros acc; simpl.
  - reflexivity.
  - rewrite Hfg. destruct (g acc x); [apply IH | reflexivity].
Qed.

(* ===================================================================== *)
(** ** The scoring loop of [_run] *)
(* ===================================================================== *)

Section Loop.

Variable polarity : string -> Q.
Variable env : Env.
Variable ticker : string.
Variable days : Z.

Lemma score_item_ok acc tot item res tot' :
  StockSage.score_item polarity env ticker days (acc, tot) item = Py.Ok (res, tot') ->
  exists p, res = (acc ++ [p])%list
            /\ processed_from polarity env ticker days item p
            /\ tot' = (tot + StockSage.get_deterministic_sentiment polarity
                                (item_text item) ticker)%Q.
Proof.
  unfold StockSage.score_item.
  destruct (StockSage.get_deterministic_date env ticker (Py.get item "title" "") days)
    as [d|e] eqn:Hd; simpl; [|discriminate].
  intros H. injection H as <- <-.
  eexists. split; [reflexivity|]. split; [|reflexivity].
  unfold processed_from; simpl. repeat split; assumption.
Qed.

(** Loop invariant: the items appended so far are the images of the
    items consumed so far, and the running total is their sum. *)
Lemma for_each_score_item items : forall acc tot res tot',
  Py.for_each (StockSage.score_item polarity env ticker days) items (acc, tot)
  = Py.Ok (res, tot') ->
  exists new, res = (acc ++ new)%list
              /\ Forall2 (processed_from polarity env ticker days) items new
              /\ tot' = fold_left Qplus
                          (map (fun item =>
                                  StockSage.get_deterministic_sentiment polarity
                                    (item_text item) ticker)
                               items)
                          tot.
Proof.
  induction items as [|item items IH]; intros acc tot res tot' H;
    cbn [Py.for_each] in H.
  - injection H as <- <-. exists []. rewrite app_nil_r. repeat split. constructor.
  - destruct (StockSage.score_item polarity env ticker days (acc, tot) item)
      as [[acc1 tot1]|e] eqn:E; [|discriminate].
    apply score_item_ok in E as (p & -> & Hp & ->).
    apply IH in H as (new & -> & Hnew & ->).
    exists (p :: new). rewrite <- app_assoc. simpl. repeat split.
    constructor; assumption.
Qed.

(** The loop raises only through [get_deterministic_date]. *)
Lemma for_each_score_item_returns items :
  (forall headline, Py.returns (StockSage.get_deterministic_date env ticker headline days)) ->
  forall acc, Py.returns (Py.for_each (StockSage.score_item polarity env ticker days) items acc).
Proof.
  intros Hdate. induction items as [|item items IH]; intros [acc tot];
    cbn [Py.for_each].
  - eexists; reflexivity.
  - unfold StockSage.score_item at 1.
    destruct (Hdate (Py.get item "title" "")) as [d ->]. simpl. apply IH.
Qed.

End Loop.

Lemma days_back_range ticker headline days :
  days <> 0 ->
  exists d, StockSage.days_back ticker headline days = Py.Ok d
            /\ (0 < days -> 1 <= d <= days)
            /\ (days < 0 -> days + 2 <= d <= 1).
Proof.
  intros Hd. unfold StockSage.days_back, Py.int_mod.
  destruct (days =? 0) eqn:E; [apply Z.eqb_eq in E; contradiction|].
  simpl. eexists. split; [reflexivity|]. split; intros H.
  - pose proof (Z.mod_pos_bound (Hashlib.md5_int (ticker +:+ headline)) days H). lia.
  - pose proof (Z.mod_neg_bound (Hashlib.md5_int (ticker +:+ headline)) days H). lia.
Qed.

Lemma get_deterministic_date_returns env ticker headline days :
  days <> 0 -> in_calendar env days ->
  Py.returns (StockSage.get_deterministic_date env ticker headline days).
Proof.
  intros Hd [Hlo Hhi]. unfold StockSage.get_deterministic_date.
  destruct (days_back_range ticker headline days Hd) as (d & -> & Hpos & Hneg).
  simpl. unfold Datetime.minus_days.
  assert (Hmax : Datetime.max_ordinal = 3652059) by reflexivity.
  assert (Hdel : Datetime.max_delta_days = 999999999) by reflexivity.
  destruct (Z.abs d >? Datetime.max_delta_days) eqn:E1.
  - apply Z.gtb_lt in E1. lia.
  - destruct (andb (1 <=? today env - d) (today env - d <=? Datetime.max_ordinal)) eqn:E2.
    + simpl. eexists; reflexivity.
    + apply andb_false_iff in E2 as [E2|E2];
        [apply Z.leb_gt in E2 | apply Z.leb_gt in E2]; lia.
Qed.

(** What a returned report is made of. *)
Lemma run_inversion polarity self env ticker days search_query r :
  StockSage._run polarity self env ticker days search_query = Py.Ok r ->
  let items := first_ten (StockSage.fetch_stock_news self env ticker search_query) in
  let scores :=
    map (fun item => StockSage.get_deterministic_sentiment polarity (item_text item) ticker)
        items in
  let overall :=
    match items with
    | [] => StockSage.get_deterministic_sentiment polarity ticker "fallback"
    | _ :: _ => Py.round2 (mean scores)
    end in
  Forall2 (processed_from polarity env ticker days) items (news_items r)
  /\ r = {| ticker := ticker;
            company_name := StockSage.get_company_name_for_ticker ticker;
            search_context :=
              Py.if_truthy search_query (ticker +:+ " stock financial news analysis");
            overall_sentiment_score := overall;
            sentiment_label := overall_label overall;
            news_count := length items;
            social_media_mentions :=
              StockSage.get_deterministic_social_media_mentions ticker
                (Z.of_nat (length items));
            analyst_ratings := StockSage.get_deterministic_analyst_ratings overall;
            news_items := news_items r |}.
Proof.
  unfold StockSage._run. fold (first_ten (StockSage.fetch_stock_news self env ticker search_query)).
  set (items := first_ten _).
  destruct (Py.for_each _ items ([], 0%Q)) as [[processed total]|e] eqn:E; simpl; [|discriminate].
  apply for_each_score_item in E as (new & -> & Hnew & ->). simpl.
  intros H. injection H as <-. simpl.
  split; [assumption|].
  pose proof (Forall2_length _ _ _ Hnew) as Hlen.
  destruct Hnew as [|item p items' new' Hp Hrest]; simpl.
  - reflexivity.
  - injection Hlen as Hlen. rewrite <- Hlen.
    unfold mean, overall_label. simpl. rewrite length_map. reflexivity.
Qed.

Lemma run_returns polarity self env ticker days search_query :
  days <> 0 -> in_calendar env days ->
  Py.returns (StockSage._run polarity self env ticker days search_query).
Proof.
  intros Hd Hcal. unfold StockSage._run.
  destruct (for_each_score_item_returns polarity env ticker days
              (take (Nat.min (length (StockSage.fetch_stock_news self env ticker search_query)) 10)
                    (StockSage.fetch_stock_news self env ticker search_query))
              (fun h => get_deterministic_date_returns env ticker h days Hd Hcal)
              ([], 0%Q)) as [[processed total] ->].
  simpl. eexists; reflexivity.
Qed.

(* ===================================================================== *)
(** ** Numeric lemmas *)
(* ===================================================================== *)

Lemma int_of_float_floor (x : Q) : (0 <= x)%Q -> Py.int_of_float x = Qfloor x.
Proof.
  destruct x as [n d]. unfold Qle, Py.int_of_float, Qfloor. simpl. intros H.
  apply Z.quot_div_nonneg; lia.
Qed.

Lemma int_of_float_nonneg (x : Q) : (0 <= x)%Q -> 0 <= Py.int_of_float x.
Proof.
  intros H. rewrite int_of_float_floor by assumption.
  change 0 with (Qfloor 0). apply Qfloor_resp_le. assumption.
Qed.

Lemma max_ge_l (x y : Q) : (x <= Py.max x y)%Q.
Proof.
  unfold Py.max. destruct (Py.ltb x y) eqn:E.
  - apply ltb_lt in E. lra.
  - lra.
Qed.

Lemma adjustment_range text seed :
  (- (1 # 10) <= StockSage.adjustment text seed <= 1 # 10)%Q.
Proof.
  unfold StockSage.adjustment, Py.true_div.
  pose proof (Z.mod_pos_bound (Hashlib.md5_int (text +:+ seed)) 20 ltac:(lia)) as H.
  unfold Qle; simpl. lia.
Qed.

Lemma get_deterministic_sentiment_range polarity text seed :
  (-1 <= StockSage.get_deterministic_sentiment polarity text seed <= 1)%Q.
Proof.
  unfold StockSage.get_deterministic_sentiment, Py.max, Py.min.
  set (x := (polarity text + StockSage.adjustment text seed)%Q).
  destruct (Py.ltb 1 x) eqn:E1.
  - destruct (Py.ltb 1 (-1)) eqn:E2; [apply ltb_lt in E2|]; lra.
  - apply ltb_ge in E1.
    destruct (Py.ltb x (-1)) eqn:E2; [lra|]. apply ltb_ge in E2. lra.
Qed.

Lemma mentions_at_least_1000 ticker news_count :
  1000 <= StockSage.get_deterministic_social_media_mentions ticker news_count.
Proof.
  unfold StockSage.get_deterministic_social_media_mentions, Py.float_of_int.
  set (base := Hashlib.md5_int ticker mod 5000 + 1000).
  assert (Hbase : 1000 <= base).
  { pose proof (Z.mod_pos_bound (Hashlib.md5_int ticker) 5000 ltac:(lia)). lia. }
  set (factor := Py.max 1 (Py.true_div news_count 2)).
  assert (Hfactor : (1 <= factor)%Q) by apply max_ge_l.
  assert (HbaseQ : (inject_Z 1000 <= inject_Z base)%Q)
    by (rewrite <- Zle_Qle; exact Hbase).
  assert (Hprod : (inject_Z 1000 <= inject_Z base * factor)%Q).
  { assert (0 <= (inject_Z base - inject_Z 1000) * factor)%Q
      by (apply Qmult_le_0_compat; lra).
    change (inject_Z 1000) with 1000%Q in *. lra. }
  rewrite int_of_float_floor by (change (inject_Z 1000) with 1000%Q in Hprod; lra).
  rewrite <- (Qfloor_Z 1000). apply Qfloor_resp_le. exact Hprod.
Qed.

Lemma round_half_even_range (y : Q) :
  (-100 <= y <= 100)%Q -> -100 <= Py.round_half_even y <= 100.
Proof.
  intros [Hlo Hhi]. unfold Py.round_half_even.
  assert (Hf1 : -100 <= Qfloor y)
    by (change (-100) with (Qfloor (-100)); apply Qfloor_resp_le; exact Hlo).
  assert (Hf2 : Qfloor y <= 100)
    by (change 100 with (Qfloor 100); apply Qfloor_resp_le; exact Hhi).
  destruct (Py.ltb (y - inject_Z (Qfloor y)) (1 # 2)) eqn:E1; [lia|].
  apply ltb_ge in E1.
  assert (Hne : Qfloor y <> 100).
  { intros Heq. rewrite Heq in E1. change (inject_Z 100) with 100%Q in E1. lra. }
  destruct (Py.ltb (1 # 2) (y - inject_Z (Qfloor y))); [lia|].
  destruct (Z.even (Qfloor y)); lia.
Qed.

Lemma round2_range (x : Q) : (-1 <= x <= 1)%Q -> (-1 <= Py.round2 x <= 1)%Q.
Proof.
  intros H.
  pose proof (round_half_even_range (x * 100) ltac:(lra)) as Hr.
  unfold Py.round2, Qle. simpl. lia.
Qed.

Lemma fold_left_sum_range (xs : list Q) : forall acc,
  Forall (fun x => -1 <= x <= 1)%Q xs ->
  (acc - inject_Z (Z.of_nat (length xs)) <= fold_left Qplus xs acc
   <= acc + inject_Z (Z.of_nat (length xs)))%Q.
Proof.
  induction xs as [|x xs IH]; intros acc H; simpl fold_left.
  - change (inject_Z (Z.of_nat (length (@nil Q)))) with 0%Q. lra.
  - inversion H as [|? ? Hx Hxs]; subst.
    specialize (IH (acc + x)%Q Hxs).
    change (length (x :: xs)) with (S (length xs)).
    rewrite Nat2Z.inj_succ. unfold Z.succ. rewrite inject_Z_plus.
    change (inject_Z 1) with 1%Q. lra.
Qed.

Lemma mean_range (xs : list Q) :
  xs <> [] -> Forall (fun x => -1 <= x <= 1)%Q xs -> (-1 <= mean xs <= 1)%Q.
Proof.
  intros Hne H. unfold mean.
  pose proof (fold_left_sum_range xs 0 H) as Hs.
  set (n := inject_Z (Z.of_nat (length xs))) in *.
  assert (Hn : (0 < n)%Q).
  { unfold n. change 0%Q with (inject_Z 0). rewrite <- Zlt_Qlt.
    destruct xs; [contradiction | simpl; lia]. }
  split.
  - apply Qle_shift_div_l; [exact Hn | lra].
  - apply Qle_shift_div_r; [exact Hn | lra].
Qed.

Lemma scaled_sentiment_range (s : Q) :
  (-1 <= s <= 1)%Q -> 0 <= Qfloor ((s + 1) * 50) <= 100.
Proof.
  intros H. split.
  - change 0 with (Qfloor 0). apply Qfloor_resp_le. lra.
  - change 100 with (Qfloor 100). apply Qfloor_resp_le. lra.
Qed.

Lemma hold_ratio_range (s : Q) :
  (-1 <= s <= 1)%Q -> (1 # 2 <= 1 - Qabs s / 2 <= 1)%Q.
Proof.
  intros H.
  assert (Qabs s <= 1)%Q by (apply Qabs_Qle_condition; lra).
  pose proof (Qabs_nonneg s).
  unfold Qdiv. change (/ 2)%Q with (1 # 2)%Q.
  set (a := Qabs s) in *. lra.
Qed.

(** On the scores the tool produces, [int(.)] is only applied to
    non-negative numbers, where truncation and floor agree. *)
Lemma analyst_ratings_floor (s : Q) :
  (-1 <= s <= 1)%Q ->
  StockSage.get_deterministic_analyst_ratings s = analyst_ratings_spec s.
Proof.
  intros H.
  unfold StockSage.get_deterministic_analyst_ratings, analyst_ratings_spec,
    Py.true_div, Py.abs.
  pose proof (scaled_sentiment_range s H) as Hsc.
  pose proof (hold_ratio_range s H) as Hh.
  rewrite (int_of_float_floor ((s + 1) * 50)) by lra.
  set (scaled := Qfloor ((s + 1) * 50)) in *.
  f_equal; apply int_of_float_floor.
  - apply Qmult_le_0_compat; [lra | unfold Qle; simpl; lia].
  - apply Qmult_le_0_compat; lra.
  - apply Qmult_le_0_compat; [lra | unfold Qle; simpl; lia].
Qed.

Lemma analyst_ratings_nonneg (s : Q) :
  (-1 <= s <= 1)%Q ->
  let r := StockSage.get_deterministic_analyst_ratings s in
  0 <= buy r /\ 0 <= hold r /\ 0 <= sell r.
Proof.
  intros H. rewrite analyst_ratings_floor by assumption.
  pose proof (scaled_sentiment_range s H) as Hsc.
  pose proof (hold_ratio_range s H) as Hh.
  unfold analyst_ratings_spec; cbn [buy hold sell].
  set (scaled := Qfloor ((s + 1) * 50)) in *.
  repeat split; change 0 with (Qfloor 0); apply Qfloor_resp_le;
    apply Qmult_le_0_compat; try lra; unfold Qle; simpl; lia.
Qed.

Lemma item_label_cases (s : Q) :
  item_label s = "positive" \/ item_label s = "negative" \/ item_label s = "neutral".
Proof.
  unfold item_label.
  destruct (Py.ltb (1 # 10) s); [auto|]. destruct (Py.ltb s (- (1 # 10))); auto.
Qed.

Lemma overall_label_cases (s : Q) :
  overall_label s = "Bullish" \/ overall_label s = "Bearish" \/ overall_label s = "Neutral".
Proof.
  unfold overall_label.
  destruct (Py.ltb (3 # 10) s); [auto|]. destruct (Py.ltb s (- (3 # 10))); auto.
Qed.

Lemma overall_score_range polarity ticker (items : list NewsItem) :
  let scores :=
    map (fun item => StockSage.get_deterministic_sentiment polarity (item_text item) ticker)
        items in
  (-1 <= match items with
         | [] => StockSage.get_deterministic_sentiment polarity ticker "fallback"
         | _ :: _ => Py.round2 (mean scores)
         end <= 1)%Q.
Proof.
  destruct items as [|item items]; simpl.
  - apply get_deterministic_sentiment_range.
  - apply round2_range. apply mean_range; [discriminate|].
    constructor; [apply get_deterministic_sentiment_range|].
    apply List.Forall_forall. intros x Hx. apply in_map_iff in Hx as (it & <- & _).
    apply get_deterministic_sentiment_range.
Qed.

Lemma run_well_shaped polarity self env ticker days search_query r :
  StockSage._run polarity self env ticker days search_query = Py.Ok r ->
  well_shaped r.
Proof.
  intros Hrun. apply run_inversion in Hrun as [Hitems Hr].
  set (items := first_ten _) in *.
  pose proof (overall_score_range polarity ticker items) as Hov.
  pose proof (Forall2_length _ _ _ Hitems) as Hlen.
  rewrite Hr. unfold well_shaped; simpl.
  split; [exact Hov|].
  split; [apply overall_label_cases|].
  split; [exact Hlen|].
  split; [pose proof (mentions_at_least_1000 ticker (Z.of_nat (length items))); lia|].
  pose proof (analyst_ratings_nonneg _ Hov) as (Hb & Hh & Hs).
  split; [exact Hb|]. split; [exact Hh|]. split; [exact Hs|].
  clear Hr Hov Hlen Hb Hh Hs.
  induction Hitems as [|item p its ps Hp _ IH]; constructor; [|exact IH].
  destruct Hp as (_ & _ & _ & Hlab & Hsc & _).
  split.
  - rewrite Hlab. apply item_label_cases.
  - rewrite Hsc. apply round2_range, get_deterministic_sentiment_range.
Qed.

(* ===================================================================== *)
(** ** Claims *)
(* ===================================================================== *)

Lemma get_deterministic_date_today env1 env2 ticker headline days :
  today env1 = today env2 ->
  StockSage.get_deterministic_date env1 ticker headline days
  = StockSage.get_deterministic_date env2 ticker headline days.
Proof.
  intros H. unfold StockSage.get_deterministic_date. rewrite H. reflexivity.
Qed.

Lemma fetch_stock_news_no_network self env ticker search_query :
  fetch_failed (post env (serper_api_key self) (StockSage.query ticker search_query)) ->
  StockSage.fetch_stock_news self env ticker search_query
  = StockSage.get_fallback_news_data ticker search_query.
Proof.
  unfold StockSage.fetch_stock_news.
  destruct (post env (serper_api_key self) (StockSage.query ticker search_query));
    simpl; intros H; [reflexivity | reflexivity | reflexivity | contradiction].
Qed.

Lemma processed_from_blank_date polarity env1 env2 ticker days items :
  forall ps1 ps2,
  Forall2 (processed_from polarity env1 ticker days) items ps1 ->
  Forall2 (processed_from polarity env2 ticker days) items ps2 ->
  map blank_date ps1 = map blank_date ps2.
Proof.
  induction items as [|item items IH]; intros ps1 ps2 H1 H2;
    inversion H1; inversion H2; subst; simpl.
  - reflexivity.
  - f_equal; [|apply IH; assumption].
    unfold blank_date.
    repeat match goal with
           | H : processed_from _ _ _ _ _ _ |- _ =>
               destruct H as (-> & -> & _ & -> & -> & -> & ->)
           end.
    reflexivity.
Qed.

(** C1 (as amended). Without network access the report is a function of
    (ticker, days, search_query) and of the calendar date the clock shows:
    two runs on the same date return the same report whatever the API key
    and the process environment, [get_deterministic_date] returns the same
    string for the same (ticker, headline, days) on the same date, and two
    runs on different dates agree on everything but the date strings of
    the items (scores, labels, mention count and rating split included). *)
Theorem C1_fallback_report_determined_by_date
    polarity self1 self2 env1 env2 ticker days search_query :
  no_network env1 -> no_network env2 ->
  (today env1 = today env2 ->
     StockSage._run polarity self1 env1 ticker days search_query
     = StockSage._run polarity self2 env2 ticker days search_query
     /\ forall headline,
          StockSage.get_deterministic_date env1 ticker headline days
          = StockSage.get_deterministic_date env2 ticker headline days)
  /\ (forall r1 r2,
        StockSage._run polarity self1 env1 ticker days search_query = Py.Ok r1 ->
        StockSage._run polarity self2 env2 ticker days search_query = Py.Ok r2 ->
        without_dates r1 = without_dates r2).
Proof.
  intros Hoff1 Hoff2.
  assert (Hfetch :
    StockSage.fetch_stock_news self1 env1 ticker search_query
    = StockSage.fetch_stock_news self2 env2 ticker search_query).
  { rewrite !fetch_stock_news_no_network; [reflexivity | |].
    - rewrite Hoff2. exact I.
    - rewrite Hoff1. exact I. }
  split.
  - intros Htoday. split.
    + unfold StockSage._run. rewrite Hfetch.
      rewrite (for_each_ext (StockSage.score_item polarity env1 ticker days)
                            (StockSage.score_item polarity env2 ticker days)).
      * reflexivity.
      * intros [acc tot] item. unfold StockSage.score_item.
        rewrite (get_deterministic_date_today env1 env2) by exact Htoday.
        reflexivity.
    + intros headline. apply get_deterministic_date_today. exact Htoday.
  - intros r1 r2 H1 H2.
    apply run_inversion in H1 as [Hi1 Hr1]. apply run_inversion in H2 as [Hi2 Hr2].
    rewrite Hfetch in Hi1, Hr1.
    pose proof (processed_from_blank_date _ _ _ _ _ _ _ _ Hi1 Hi2) as Hnews.
    rewrite Hr1, Hr2. unfold without_dates. simpl.
    rewrite Hnews. reflexivity.
Qed.

Lemma C1_fallback_report_determined_by_date_witness :
  no_network (offline 739923)
  /\ StockSage._run neutral_polarity {| serper_api_key := Some "key" |}
       (offline 739923) "AAPL" 30 None
     = StockSage._run neutral_polarity {| serper_api_key := None |}
         (offline 739923) "AAPL" 30 None.
Proof.
  split.
  - intros key q. reflexivity.
  - apply (C1_fallback_report_determined_by_date neutral_polarity
             {| serper_api_key := Some "key" |} {| serper_api_key := None |}
             (offline 739923) (offline 739923) "AAPL" 30 None).
    + intros key q. reflexivity.
    + intros key q. reflexivity.
    + reflexivity.
Defined.

(** C1, counterexample. Two calls with the same ("AAPL", 30, None) and no
    network, one on 2026-11-03 and one the day after, return different
    reports: the date of the first headline is 2026-10-05 in the first
    and 2026-10-06 in the second. *)
Lemma C1_counterexample_next_day :
  (forall polarity self,
     StockSage._run polarity self (offline 739923) "AAPL" 30 None
     <> StockSage._run polarity self (offline 739924) "AAPL" 30 None)
  /\ StockSage.get_deterministic_date (offline 739923) "AAPL"
       "Apple Inc. (AAPL) Reports Quarterly Earnings Above Expectations" 30
     = Py.Ok "2026-10-05"
  /\ StockSage.get_deterministic_date (offline 739924) "AAPL"
       "Apple Inc. (AAPL) Reports Quarterly Earnings Above Expectations" 30
     = Py.Ok "2026-10-06".
Proof.
  split; [|split; vm_compute; reflexivity].
  intros polarity self H.
  apply (f_equal (fun m => match m with
                           | Py.Ok r => map date (news_items r)
                           | Py.Raise _ => []
                           end)) in H.
  vm_compute in H. discriminate H.
Qed.









(** C5. [get_fallback_news_data] returns exactly 5 items for every ticker
    and every optional query.  For ("AAPL", "CEO reputation") the query
    lower-cased contains "ceo" and not "product", the 5 headlines are the
    leadership templates filled with "Apple Inc." and "AAPL", and every
    item names "Apple Inc." and "AAPL" in its title and in its snippet. *)
Theorem C5_fallback_five_items :
  (forall ticker search_query,
     length (StockSage.get_fallback_news_data ticker search_query) = 5%nat)
  /\ (let items := StockSage.get_fallback_news_data "AAPL" (Some "CEO reputation") in
      length items = 5%nat
      /\ Py.contains "ceo" (Py.lower "CEO reputation") = true
      /\ Py.contains "product" (Py.lower "CEO reputation") = false
      /\ map (fun item : NewsItem => Py.get item "title" "") items
         = [ "Apple Inc. (AAPL) CEO Outlines Vision for Company Growth";
             "Leadership Changes at Apple Inc. (AAPL) Seen as Positive by Analysts";
             "Apple Inc. (AAPL) Executive Team Receives Industry Recognition";
             "CEO of Apple Inc. (AAPL) Speaks at Industry Conference on Innovation";
             "Leadership Strategy at Apple Inc. (AAPL) Focuses on Sustainable Growth" ]
      /\ forallb (fun item : NewsItem =>
                     Py.contains "Apple Inc." (Py.get item "title" "")
                     && Py.contains "AAPL" (Py.get item "title" "")
                     && Py.contains "Apple Inc." (Py.get item "snippet" "")
                     && Py.contains "AAPL" (Py.get item "snippet" ""))
                  items = true).
Proof.
  split.
  - intros ticker search_query. unfold StockSage.get_fallback_news_data.
    cbv zeta. rewrite length_imap.
    repeat match goal with
           | |- context [if ?b then _ else _] => destruct b
           end; reflexivity.
  - cbv zeta. split; [vm_compute; reflexivity|].
    split; [vm_compute; reflexivity|].
    split; [vm_compute; reflexivity|].
    split; [vm_compute; reflexivity|].
    vm_compute. reflexivity.
Qed.

Lemma follows_item_label (s : Q) :
  follows_thresholds (1 # 10) "positive" "negative" "neutral" s (item_label s).
Proof.
  unfold follows_thresholds, item_label.
  destruct (Py.ltb (1 # 10) s) eqn:E1.
  - apply ltb_lt in E1. repeat split; intros; try reflexivity; exfalso; lra.
  - apply ltb_ge in E1. destruct (Py.ltb s (- (1 # 10))) eqn:E2.
    + apply ltb_lt in E2. repeat split; intros; try reflexivity; exfalso; lra.
    + apply ltb_ge in E2. repeat split; intros; try reflexivity; exfalso; lra.
Qed.

Lemma follows_overall_label (s : Q) :
  follows_thresholds (3 # 10) "Bullish" "Bearish" "Neutral" s (overall_label s).
Proof.
  unfold follows_thresholds, overall_label.
  destruct (Py.ltb (3 # 10) s) eqn:E1.
  - apply ltb_lt in E1. repeat split; intros; try reflexivity; exfalso; lra.
  - apply ltb_ge in E1. destruct (Py.ltb s (- (3 # 10))) eqn:E2.
    + apply ltb_lt in E2. repeat split; intros; try reflexivity; exfalso; lra.
    + apply ltb_ge in E2. repeat split; intros; try reflexivity; exfalso; lra.
Qed.

(** C6. In every report [_run] returns, the label of each item follows
    the strict thresholds on the score of that item (above 0.1 positive,
    below -0.1 negative, neutral otherwise), and the label of the report
    follows the strict thresholds on [overall_sentiment_score] (above 0.3
    Bullish, below -0.3 Bearish, Neutral otherwise); an overall score of
    exactly 0.3, or exactly -0.3, is labelled Neutral. *)
Theorem C6_label_thresholds polarity self env ticker days search_query r :
  StockSage._run polarity self env ticker days search_query = Py.Ok r ->
  Forall2
    (fun item p =>
       follows_thresholds (1 # 10) "positive" "negative" "neutral"
         (StockSage.get_deterministic_sentiment polarity (item_text item) ticker)
         (sentiment p))
    (first_ten (StockSage.fetch_stock_news self env ticker search_query))
    (news_items r)
  /\ follows_thresholds (3 # 10) "Bullish" "Bearish" "Neutral"
       (overall_sentiment_score r) (sentiment_label r)
  /\ ((overall_sentiment_score r == 3 # 10)%Q -> sentiment_label r = "Neutral")
  /\ ((overall_sentiment_score r == - (3 # 10))%Q -> sentiment_label r = "Neutral").
Proof.
  intros Hrun. apply run_inversion in Hrun as [Hitems Hr].
  split.
  - clear Hr. induction Hitems as [|item p its ps Hp _ IH]; constructor; [|exact IH].
    destruct Hp as (_ & _ & _ & -> & _). apply follows_item_label.
  - assert (Hlab : follows_thresholds (3 # 10) "Bullish" "Bearish" "Neutral"
                     (overall_sentiment_score r) (sentiment_label r)).
    { rewrite Hr. cbn [overall_sentiment_score sentiment_label].
      apply follows_overall_label. }
    split; [exact Hlab|].
    destruct Hlab as (_ & _ & Hmid).
    split; intros Heq; apply Hmid; rewrite Heq; split; lra.
Qed.

Lemma C6_label_thresholds_witness :
  exists r,
    StockSage._run (boundary_polarity "AAPL") {| serper_api_key := None |}
      (offline 739923) "AAPL" 30 None = Py.Ok r
    /\ (overall_sentiment_score r == 3 # 10)%Q
    /\ sentiment_label r = "Neutral".
Proof.
  eexists. split; [vm_compute; reflexivity|].
  split; [vm_compute; reflexivity|].
  refine (proj1 (proj2 (proj2
            (C6_label_thresholds (boundary_polarity "AAPL") {| serper_api_key := None |}
               (offline 739923) "AAPL" 30 None _ _))) _).
  - vm_compute. reflexivity.
  - vm_compute. reflexivity.
Defined.

Lemma first_ten_take (fetched : list NewsItem) :
  first_ten fetched = take 10 fetched.
Proof.
  unfold first_ten.
  destruct (Nat.le_ge_cases (length fetched) 10) as [H|H].
  - rewrite Nat.min_l by exact H. rewrite !firstn_all2 by lia. reflexivity.
  - rewrite Nat.min_r by exact H. reflexivity.
Qed.

Lemma first_ten_length (fetched : list NewsItem) :
  length (first_ten fetched) = Nat.min (length fetched) 10.
Proof.
  unfold first_ten. rewrite length_take. lia.
Qed.



(** C8. In every report [_run] returns, for a fetched sequence of length
    n: [news_count] is min(n, 10), it is the length of [news_items], it is
    at most 10, and the items of the report are, in order, the images of
    the first min(n, 10) fetched items; later items leave no trace. *)
Theorem C8_first_ten_items polarity self env ticker days search_query r :
  StockSage._run polarity self env ticker days search_query = Py.Ok r ->
  let fetched := StockSage.fetch_stock_news self env ticker search_query in
  news_count r = Nat.min (length fetched) 10
  /\ news_count r = length (news_items r)
  /\ (news_count r <= 10)%nat
  /\ Forall2 (processed_from polarity env ticker days) (take 10 fetched) (news_items r).
Proof.
  intros Hrun fetched. apply run_inversion in Hrun as [Hitems Hr].
  fold fetched in Hitems, Hr.
  pose proof (Forall2_length _ _ _ Hitems) as Hlen.
  rewrite first_ten_length in Hlen.
  assert (Hcount : news_count r = Nat.min (length fetched) 10).
  { rewrite Hr. cbn [news_count]. apply first_ten_length. }
  split; [exact Hcount|]. split; [lia|]. split; [lia|].
  rewrite <- first_ten_take. exact Hitems.
Qed.

Lemma C8_first_ten_items_witness :
  exists r,
    StockSage._run neutral_polarity {| serper_api_key := Some "key" |}
      (online 739923 (numbered_news 12)) "AAPL" 30 None = Py.Ok r
    /\ news_count r = 10%nat
    /\ map headline (news_items r)
       = [ "Item 0"; "Item 1"; "Item 2"; "Item 3"; "Item 4";
           "Item 5"; "Item 6"; "Item 7"; "Item 8"; "Item 9" ].
Proof.
  eexists. split; [vm_compute; reflexivity|].
  split; [|vm_compute; reflexivity].
  refine (proj1 (C8_first_ten_items neutral_polarity {| serper_api_key := Some "key" |}
                   (online 739923 (numbered_news 12)) "AAPL" 30 None _ _)).
  vm_compute. reflexivity.
Defined.

(** C9. The deterministic methods of the tradesymphony copy of the tool
    return the same values as those of the stocksage one, on every
    input: [get_deterministic_sentiment], [get_deterministic_date],
    [get_deterministic_social_media_mentions],
    [get_deterministic_analyst_ratings], [get_fallback_news_data] and
    [get_company_name_for_ticker]. *)
Theorem C9_two_implementations_agree (polarity : string -> Q) :
  (forall text seed,
     TradeSymphony.get_deterministic_sentiment polarity text seed
     = StockSage.get_deterministic_sentiment polarity text seed)
  /\ (forall env ticker headline days,
        TradeSymphony.get_deterministic_date env ticker headline days
        = StockSage.get_deterministic_date env ticker headline days)
  /\ (forall ticker news_count,
        TradeSymphony.get_deterministic_social_media_mentions ticker news_count
        = StockSage.get_deterministic_social_media_mentions ticker news_count)
  /\ (forall sentiment_score,
        TradeSymphony.get_deterministic_analyst_ratings sentiment_score
        = StockSage.get_deterministic_analyst_ratings sentiment_score)
  /\ (forall ticker search_query,
        TradeSymphony.get_fallback_news_data ticker search_query
        = StockSage.get_fallback_news_data ticker search_query)
  /\ (forall ticker,
        TradeSymphony.get_company_name_for_ticker ticker
        = StockSage.get_company_name_for_ticker ticker).
Proof.
  split.
  { intros text seed.
    unfold TradeSymphony.get_deterministic_sentiment, StockSage.get_deterministic_sentiment,
      TradeSymphony.adjustment, StockSage.adjustment. reflexivity. }
  split.
  { intros env ticker headline days.
    unfold TradeSymphony.get_deterministic_date, StockSage.get_deterministic_date,
      TradeSymphony.days_back, StockSage.days_back. reflexivity. }
  split.
  { intros ticker news_count.
    unfold TradeSymphony.get_deterministic_social_media_mentions,
      StockSage.get_deterministic_social_media_mentions. reflexivity. }
  split.
  { intros sentiment_score.
    unfold TradeSymphony.get_deterministic_analyst_ratings,
      StockSage.get_deterministic_analyst_ratings. reflexivity. }
  split.
  { intros ticker search_query.
    unfold TradeSymphony.get_fallback_news_data, StockSage.get_fallback_news_data,
      TradeSymphony.company_info, StockSage.company_info,
      TradeSymphony.sources, StockSage.sources.
    cbv zeta. reflexivity. }
  intros ticker.
  unfold TradeSymphony.get_company_name_for_ticker, StockSage.get_company_name_for_ticker,
    TradeSymphony.company_names, StockSage.company_names. reflexivity.
Qed.

Lemma run_headlines polarity self env ticker days search_query r :
  StockSage._run polarity self env ticker days search_query = Py.Ok r ->
  map headline (news_items r)
  = map (fun item : NewsItem => Py.get item "title" "No title")
        (first_ten (StockSage.fetch_stock_news self env ticker search_query)).
Proof.
  intros Hrun. apply run_inversion in Hrun as [Hitems _].
  induction Hitems as [|item p its ps Hp _ IH]; simpl; [reflexivity|].
  destruct Hp as (-> & _). rewrite IH. reflexivity.
Qed.

(** Whatever the query, the fallback headlines for GOOG are built on the
    name "Alphabet Inc." of the table of [get_fallback_news_data]. *)
Lemma fallback_headlines_GOOG search_query :
  forallb (fun title => Py.contains "Alphabet Inc." title
                        && negb (Py.contains "GOOG Corporation" title))
    (map (fun item : NewsItem => Py.get item "title" "No title")
         (first_ten (StockSage.get_fallback_news_data "GOOG" search_query)))
  = true
  /\ length (StockSage.get_fallback_news_data "GOOG" search_query) = 5%nat.
Proof.
  unfold StockSage.get_fallback_news_data.
  destruct search_query as [q|]; cbv beta zeta iota.
  - destruct (Py.truthy (Some q) && Py.contains "product" (Py.lower q));
      [vm_compute; split; reflexivity|].
    destruct ((Py.truthy (Some q) && Py.contains "ceo" (Py.lower q))
              || (Py.truthy (Some q) && Py.contains "leadership" (Py.lower q)));
      [vm_compute; split; reflexivity|].
    destruct (Py.truthy (Some q) && Py.contains "social" (Py.lower q));
      vm_compute; split; reflexivity.
  - vm_compute; split; reflexivity.
Qed.

(** C10. The two company-name tables of the stocksage tool disagree on
    GOOG and GOOGL.  [get_company_name_for_ticker] has no entry for GOOG
    and returns "GOOG Corporation", the table of [get_fallback_news_data]
    maps GOOG to "Alphabet Inc.": a report for GOOG built from fallback
    news has [company_name] "GOOG Corporation" and five headlines that all
    name "Alphabet Inc." and never "GOOG Corporation".  For GOOGL
    the names are "Alphabet Inc. (Google)" and "Alphabet Inc.". *)
Theorem C10_company_name_sources_disagree polarity self env days search_query r :
  fetch_failed (post env (serper_api_key self) (StockSage.query "GOOG" search_query)) ->
  StockSage._run polarity self env "GOOG" days search_query = Py.Ok r ->
  (Py.has_key StockSage.company_names "GOOG" = false
   /\ StockSage.get_company_name_for_ticker "GOOG" = "GOOG Corporation"
   /\ Py.get (Py.get StockSage.company_info "GOOG" ∅) "name" "GOOG Corporation"
       = "Alphabet Inc.")
  /\ (company_name r = "GOOG Corporation"
      /\ news_count r = 5%nat
      /\ forallb (fun title => Py.contains "Alphabet Inc." title
                               && negb (Py.contains "GOOG Corporation" title))
            (map headline (news_items r)) = true)
  /\ (StockSage.get_company_name_for_ticker "GOOGL" = "Alphabet Inc. (Google)"
      /\ Py.get (Py.get StockSage.company_info "GOOGL" ∅) "name" "GOOGL Corporation"
          = "Alphabet Inc.").
Proof.
  intros Hfail Hrun.
  split; [repeat split; vm_compute; reflexivity|].
  split; [|split; vm_compute; reflexivity].
  pose proof (run_headlines _ _ _ _ _ _ _ Hrun) as Hheads.
  apply run_inversion in Hrun as [_ Hr].
  rewrite (fetch_stock_news_no_network _ _ _ _ Hfail) in Hheads, Hr.
  destruct (fallback_headlines_GOOG search_query) as [Hall Hlen].
  split; [rewrite Hr; vm_compute; reflexivity|].
  split; [|rewrite Hheads; exact Hall].
  rewrite Hr. cbn [news_count]. rewrite first_ten_length, Hlen. reflexivity.
Qed.

Lemma C10_company_name_sources_disagree_witness :
  fetch_failed (post (offline 739923) None (StockSage.query "GOOG" None))
  /\ exists r,
       StockSage._run neutral_polarity {| serper_api_key := None |}
         (offline 739923) "GOOG" 30 None = Py.Ok r
       /\ company_name r = "GOOG Corporation"
       /\ map headline (news_items r)
          = [ "Alphabet Inc. (GOOG) Reports Quarterly Earnings Above Expectations";
              "Analysts Raise Price Target for Alphabet Inc. (GOOG) Citing Strong Growth";
              "Alphabet Inc. (GOOG) Expands Market Share in Technology/Internet Services Sector";
              "Market Trends Favorable for Alphabet Inc. (GOOG) This Quarter";
              "Investors React to Alphabet Inc.'s (GOOG) Latest Strategic Announcements" ].
Proof.
  split; [exact I|].
  eexists. split; [vm_compute; reflexivity|].
  split; [|vm_compute; reflexivity].
  refine (proj1 (proj1 (proj2
    (C10_company_name_sources_disagree neutral_polarity {| serper_api_key := None |}
       (offline 739923) 30 None _ I _)))).
  vm_compute. reflexivity.
Defined.

(* ===================================================================== *)
(** ** Further properties: strings and dicts *)
(* ===================================================================== *)

Lemma contains_unfold (p s : string) :
  Py.contains p s
  = if Py.startswith p s then true
    else match s with
         | EmptyString => false
         | String _ s' => Py.contains p s'
         end.
Proof. destruct s; reflexivity. Qed.

Lemma startswith_app (p s : string) : Py.startswith p (p +:+ s) = true.
Proof.
  induction p as [|a p IH]; simpl; [reflexivity|].
  rewrite Ascii.eqb_refl. exact IH.
Qed.

Lemma contains_here (p s : string) : Py.contains p (p +:+ s) = true.
Proof. rewrite contains_unfold, startswith_app. reflexivity. Qed.

Lemma contains_app_l (p a s : string) :
  Py.contains p s = true -> Py.contains p (a +:+ s) = true.
Proof.
  intros H. induction a as [|c a IH]; [exact H|].
  change (String c a +:+ s) with (String c (a +:+ s)).
  rewrite contains_unfold, IH. destruct (Py.startswith p _); reflexivity.
Qed.

Lemma app_inv_head_string (a x y : string) : a +:+ x = a +:+ y -> x = y.
Proof.
  induction a as [|c a IH]; simpl; intros H; [exact H|].
  injection H as H. apply IH. exact H.
Qed.

Lemma fallback_item_get (a b c d x : string) :
  let item : NewsItem :=
    {[ "title" := a; "snippet" := b; "source" := c; "link" := d ]} in
  Py.get item "title" x = a /\ Py.get item "snippet" x = b
  /\ Py.get item "source" x = c /\ Py.get item "link" x = d.
Proof. repeat split; vm_compute; reflexivity. Qed.

Ltac solve_contains :=
  repeat first [ apply contains_here | apply contains_app_l ].

(** The fallback list is made of five headlines, each naming the ticker
    and the company. *)
Lemma fallback_five ticker search_query :
  exists h0 h1 h2 h3 h4,
    StockSage.get_fallback_news_data ticker search_query
    = [ fallback_item ticker search_query 0 h0;
        fallback_item ticker search_query 1 h1;
        fallback_item ticker search_query 2 h2;
        fallback_item ticker search_query 3 h3;
        fallback_item ticker search_query 4 h4 ]
    /\ Forall (fun h => Py.contains ticker h = true
                        /\ Py.contains (fallback_company_name ticker) h = true)
         [h0; h1; h2; h3; h4].
Proof.
  unfold StockSage.get_fallback_news_data. cbv zeta.
  repeat match goal with
         | |- context [if ?b then _ else _] => destruct b
         end;
    do 5 eexists; (split; [reflexivity|]);
    unfold fallback_company_name;
    generalize (Py.get (Py.get StockSage.company_info ticker ∅) "name"
                  (ticker +:+ " Corporation")) as company;
    intros company;
    repeat (apply List.Forall_cons; [split; solve_contains|]);
    apply List.Forall_nil.
Qed.

Lemma fallback_item_fields ticker search_query i h x :
  let item := fallback_item ticker search_query i h in
  Py.get item "title" x = h
  /\ Py.get item "snippet" x
     = fallback_company_name ticker +:+ " (" +:+ ticker
       +:+ ") shows promising developments in its "
       +:+ Py.if_truthy search_query (fallback_industry ticker +:+ " business strategy")
       +:+ " with recent announcements and growing market presence."
  /\ Py.get item "source" x = nth (i mod 5)%nat StockSage.sources ""
  /\ Py.get item "link" x
     = "https://finance.example.com/" +:+ Py.lower ticker
       +:+ "/news/" +:+ Py.str_of_int (Z.of_nat i).
Proof. unfold fallback_item. apply fallback_item_get. Qed.

(** X1. Whatever the ticker and the query, every item of
    [get_fallback_news_data] names the ticker and the company name (the
    one of its own table, or "<ticker> Corporation") both in its title
    and in its snippet. *)
Theorem X1_fallback_names_ticker_and_company ticker search_query :
  Forall (fun item : NewsItem =>
            Py.contains ticker (Py.get item "title" "") = true
            /\ Py.contains (fallback_company_name ticker) (Py.get item "title" "") = true
            /\ Py.contains ticker (Py.get item "snippet" "") = true
            /\ Py.contains (fallback_company_name ticker) (Py.get item "snippet" "") = true)
    (StockSage.get_fallback_news_data ticker search_query).
Proof.
  destruct (fallback_five ticker search_query) as (h0 & h1 & h2 & h3 & h4 & -> & HF).
  assert (Hitem : forall i h,
            Py.contains ticker h = true
            /\ Py.contains (fallback_company_name ticker) h = true ->
            let item := fallback_item ticker search_query i h in
            Py.contains ticker (Py.get item "title" "") = true
            /\ Py.contains (fallback_company_name ticker) (Py.get item "title" "") = true
            /\ Py.contains ticker (Py.get item "snippet" "") = true
            /\ Py.contains (fallback_company_name ticker) (Py.get item "snippet" "") = true).
  { intros i h [Ht Hc]. cbv zeta.
    pose proof (fallback_item_fields ticker search_query i h "") as Hf.
    cbv zeta in Hf. destruct Hf as (-> & -> & _).
    repeat split; [exact Ht | exact Hc | solve_contains | solve_contains]. }
  repeat match goal with
         | H : Forall _ (_ :: _) |- _ => inversion H; subst; clear H
         end.
  repeat (apply List.Forall_cons; [apply Hitem; assumption|]).
  apply List.Forall_nil.
Qed.

Lemma fallback_link_inj ticker (a b : string) :
  "https://finance.example.com/" +:+ Py.lower ticker +:+ "/news/" +:+ a
  = "https://finance.example.com/" +:+ Py.lower ticker +:+ "/news/" +:+ b ->
  a = b.
Proof.
  intros H.
  apply app_inv_head_string, app_inv_head_string, app_inv_head_string in H.
  exact H.
Qed.

Lemma fallback_item_dom ticker search_query i h :
  dom (fallback_item ticker search_query i h)
  = ({[ "title"; "snippet"; "source"; "link" ]} : gset string).
Proof.
  unfold fallback_item. rewrite !dom_insert_L, dom_singleton_L. set_solver.
Qed.

(** X2. Whatever the ticker and the query, the five fallback items carry
    the sources Bloomberg, CNBC, Wall Street Journal, Reuters and
    Financial Times in this order, the links
    https://finance.example.com/<lower-cased ticker>/news/0 .. 4, which
    are pairwise distinct, exactly the keys title, snippet, source and
    link, and one and the same snippet. *)
Theorem X2_fallback_sources_links_keys ticker search_query :
  let items := StockSage.get_fallback_news_data ticker search_query in
  map (fun item : NewsItem => Py.get item "source" "Unknown") items
  = [ "Bloomberg"; "CNBC"; "Wall Street Journal"; "Reuters"; "Financial Times" ]
  /\ map (fun item : NewsItem => Py.get item "link" "") items
     = map (fun i => "https://finance.example.com/" +:+ Py.lower ticker
                     +:+ "/news/" +:+ i)
           [ "0"; "1"; "2"; "3"; "4" ]
  /\ NoDup (map (fun item : NewsItem => Py.get item "link" "") items)
  /\ Forall (fun item : NewsItem =>
               dom item = ({[ "title"; "snippet"; "source"; "link" ]} : gset string))
       items
  /\ (exists s, Forall (fun item : NewsItem => Py.get item "snippet" "" = s) items).
Proof.
  cbv zeta.
  destruct (fallback_five ticker search_query) as (h0 & h1 & h2 & h3 & h4 & -> & _).
  assert (Hsrc : forall i h,
            Py.get (fallback_item ticker search_query i h) "source" "Unknown"
            = nth (i mod 5)%nat StockSage.sources "")
    by (intros i h; apply (fallback_item_fields ticker search_query i h "Unknown")).
  assert (Hlink : forall i h,
            Py.get (fallback_item ticker search_query i h) "link" ""
            = "https://finance.example.com/" +:+ Py.lower ticker
              +:+ "/news/" +:+ Py.str_of_int (Z.of_nat i))
    by (intros i h; apply (fallback_item_fields ticker search_query i h "")).
  assert (Hlinks :
    map (fun item : NewsItem => Py.get item "link" "")
      [ fallback_item ticker search_query 0 h0; fallback_item ticker search_query 1 h1;
        fallback_item ticker search_query 2 h2; fallback_item ticker search_query 3 h3;
        fallback_item ticker search_query 4 h4 ]
    = map (fun i => "https://finance.example.com/" +:+ Py.lower ticker
                    +:+ "/news/" +:+ i)
          [ "0"; "1"; "2"; "3"; "4" ]).
  { cbn [map]. rewrite !Hlink. reflexivity. }
  split; [cbn [map]; rewrite !Hsrc; reflexivity|].
  split; [exact Hlinks|].
  split.
  { rewrite Hlinks. cbn [map].
    repeat (apply NoDup_cons_2;
            [ rewrite ?elem_of_cons, elem_of_nil;
              intros H;
              repeat (destruct H as [H|H];
                      [apply fallback_link_inj in H; discriminate H|]);
              exact H
            | ]).
    apply NoDup_nil_2. }
  split.
  { repeat (apply List.Forall_cons; [apply fallback_item_dom|]). apply List.Forall_nil. }
  eexists.
  repeat (apply List.Forall_cons;
          [apply (fallback_item_fields ticker search_query _ _ "")|]).
  apply List.Forall_nil.
Qed.

Lemma titles_of_imap (F : nat -> string -> NewsItem) (l : list string) :
  (forall i h, Py.get (F i h) "title" "" = h) ->
  map (fun item : NewsItem => Py.get item "title" "") (imap F l) = l.
Proof.
  revert F. induction l as [|h l IH]; intros F HF; [reflexivity|].
  cbn [imap map]. rewrite HF. f_equal. apply IH. intros i h'. apply HF.
Qed.

(** The headlines depend on the query only through the branch it
    selects. *)
Lemma fallback_titles_by_topic ticker q q' :
  topic q = topic q' -> fallback_titles ticker q = fallback_titles ticker q'.
Proof.
  unfold fallback_titles, StockSage.get_fallback_news_data. cbv beta zeta.
  rewrite !titles_of_imap by (intros i h; vm_compute; reflexivity).
  unfold topic, asks.
  generalize (match q with
              | Some q0 => Py.truthy q && Py.contains "product" (Py.lower q0)
              | None => false end) as b1.
  generalize (match q with
              | Some q0 => Py.truthy q && Py.contains "ceo" (Py.lower q0)
              | None => false end) as b2.
  generalize (match q with
              | Some q0 => Py.truthy q && Py.contains "leadership" (Py.lower q0)
              | None => false end) as b3.
  generalize (match q with
              | Some q0 => Py.truthy q && Py.contains "social" (Py.lower q0)
              | None => false end) as b4.
  generalize (match q' with
              | Some q0 => Py.truthy q' && Py.contains "product" (Py.lower q0)
              | None => false end) as c1.
  generalize (match q' with
              | Some q0 => Py.truthy q' && Py.contains "ceo" (Py.lower q0)
              | None => false end) as c2.
  generalize (match q' with
              | Some q0 => Py.truthy q' && Py.contains "leadership" (Py.lower q0)
              | None => false end) as c3.
  generalize (match q' with
              | Some q0 => Py.truthy q' && Py.contains "social" (Py.lower q0)
              | None => false end) as c4.
  intros c4 c3 c2 c1 b4 b3 b2 b1 H.
  destruct b1, b2, b3, b4, c1, c2, c3, c4; cbn in H;
    first [discriminate H | reflexivity].
Qed.

Lemma truthy_nonempty (q : string) (w : string) :
  Py.contains w (Py.lower q) = true -> w <> "" -> Py.truthy (Some q) = true.
Proof.
  intros H Hw. destruct q as [|a q]; [|reflexivity].
  destruct w as [|b w]; [contradiction | discriminate H].
Qed.

Lemma asks_true (q w : string) :
  w <> "" -> Py.contains w (Py.lower q) = true -> asks (Some q) w = true.
Proof.
  intros Hw H. unfold asks. rewrite (truthy_nonempty q w H Hw), H. reflexivity.
Qed.

Lemma asks_false (q w : string) :
  Py.contains w (Py.lower q) = false -> asks (Some q) w = false.
Proof.
  intros H. unfold asks. rewrite H. apply andb_false_r.
Qed.

Lemma asks_lower (q q' w : string) :
  Py.lower q = Py.lower q' -> asks (Some q) w = asks (Some q') w.
Proof.
  intros H. unfold asks. rewrite H. f_equal.
  destruct q, q'; try reflexivity; discriminate H.
Qed.

(** X3. The headlines of the fallback news depend on the query only
    through the template branch it selects, and the branches are tried in
    the order product, ceo or leadership, social: two queries that differ
    only in letter case get the same headlines; a query that mentions
    "product" gets the product headlines whatever else it mentions; one
    that does not but mentions "ceo" or "leadership" gets the leadership
    headlines; one that mentions only "social" gets the social-media
    headlines; any other query, the empty one included, gets the
    headlines of a call without query. *)
Theorem X3_fallback_headlines_by_topic ticker (q q' : string) :
  (Py.lower q = Py.lower q' ->
   fallback_titles ticker (Some q) = fallback_titles ticker (Some q'))
  /\ (Py.contains "product" (Py.lower q) = true ->
      fallback_titles ticker (Some q) = fallback_titles ticker (Some "product"))
  /\ (Py.contains "product" (Py.lower q) = false ->
      Py.contains "ceo" (Py.lower q) = true
      \/ Py.contains "leadership" (Py.lower q) = true ->
      fallback_titles ticker (Some q) = fallback_titles ticker (Some "ceo"))
  /\ (Py.contains "product" (Py.lower q) = false ->
      Py.contains "ceo" (Py.lower q) = false ->
      Py.contains "leadership" (Py.lower q) = false ->
      Py.contains "social" (Py.lower q) = true ->
      fallback_titles ticker (Some q) = fallback_titles ticker (Some "social"))
  /\ (Py.contains "product" (Py.lower q) = false ->
      Py.contains "ceo" (Py.lower q) = false ->
      Py.contains "leadership" (Py.lower q) = false ->
      Py.contains "social" (Py.lower q) = false ->
      fallback_titles ticker (Some q) = fallback_titles ticker None)
  /\ fallback_titles ticker (Some "") = fallback_titles ticker None.
Proof.
  split.
  { intros H. apply fallback_titles_by_topic. unfold topic.
    rewrite !(asks_lower q q' _ H). reflexivity. }
  split.
  { intros H. apply fallback_titles_by_topic. unfold topic.
    rewrite (asks_true q "product" ltac:(discriminate) H). reflexivity. }
  split.
  { intros Hp [H|H]; apply fallback_titles_by_topic; unfold topic;
      rewrite (asks_false q "product" Hp).
    - rewrite (asks_true q "ceo" ltac:(discriminate) H). reflexivity.
    - rewrite (asks_true q "leadership" ltac:(discriminate) H), orb_true_r.
      reflexivity. }
  split.
  { intros Hp Hc Hl Hs. apply fallback_titles_by_topic. unfold topic.
    rewrite (asks_false q "product" Hp), (asks_false q "ceo" Hc),
      (asks_false q "leadership" Hl), (asks_true q "social" ltac:(discriminate) Hs).
    reflexivity. }
  split.
  { intros Hp Hc Hl Hs. apply fallback_titles_by_topic. unfold topic.
    rewrite (asks_false q "product" Hp), (asks_false q "ceo" Hc),
      (asks_false q "leadership" Hl), (asks_false q "social" Hs).
    reflexivity. }
  apply fallback_titles_by_topic. reflexivity.
Qed.

Lemma X3_fallback_headlines_by_topic_witness :
  Py.contains "product" (Py.lower "New CEO, new Product line") = true
  /\ fallback_titles "AAPL" (Some "New CEO, new Product line")
     = fallback_titles "AAPL" (Some "product").
Proof.
  assert (H : Py.contains "product" (Py.lower "New CEO, new Product line") = true)
    by (vm_compute; reflexivity).
  split; [exact H|].
  exact (proj1 (proj2 (X3_fallback_headlines_by_topic "AAPL"
                         "New CEO, new Product line" "") ) H).
Defined.

Lemma company_names_unlisted ticker :
  ~ In ticker [ "AAPL"; "MSFT"; "AMZN"; "GOOGL"; "META"; "TSLA"; "NVDA"; "JPM";
                "V"; "MA"; "PYPL"; "DIS"; "NFLX"; "INTC"; "AMD"; "IBM"; "CSCO";
                "ADBE"; "CRM"; "ORCL" ] ->
  StockSage.get_company_name_for_ticker ticker = ticker +:+ " Corporation".
Proof.
  intros H. unfold StockSage.get_company_name_for_ticker, Py.has_key.
  assert (Hnone : StockSage.company_names !! ticker = None).
  { unfold StockSage.company_names.
    rewrite !list_to_map_cons, list_to_map_nil.
    rewrite !lookup_insert_ne, lookup_empty; [reflexivity|..];
      intros <-; apply H; simpl; tauto. }
  rewrite Hnone. reflexivity.
Qed.

Lemma company_info_unlisted ticker :
  ~ In ticker [ "AAPL"; "MSFT"; "AMZN"; "GOOGL"; "GOOG"; "META"; "TSLA"; "NVDA";
                "JPM"; "V" ] ->
  fallback_company_name ticker = ticker +:+ " Corporation"
  /\ fallback_industry ticker = "Technology".
Proof.
  intros H. unfold fallback_company_name, fallback_industry.
  assert (Hnone : StockSage.company_info !! ticker = None).
  { unfold StockSage.company_info.
    rewrite !list_to_map_cons, list_to_map_nil.
    rewrite !lookup_insert_ne, lookup_empty; [reflexivity|..];
      intros <-; apply H; simpl; tauto. }
  unfold Py.get at 2 4. rewrite Hnone. split; reflexivity.
Qed.

Ltac tables_agree :=
  split; [intros _; simpl; intros H;
          repeat (destruct H as [H|H]; [discriminate H|]); exact H
         | intros _; vm_compute; reflexivity].

Ltac tables_disagree :=
  split; [intros H; vm_compute in H; discriminate H
         | intros H; exfalso; apply H; simpl; tauto].

(** X4. For which tickers the two name tables of the tool agree.  The
    company name [get_fallback_news_data] writes into its headlines is
    the one [get_company_name_for_ticker] returns for every ticker but
    thirteen: GOOGL and GOOG, which the two tables name differently, and
    the eleven tickers MA, PYPL, DIS, NFLX, INTC, AMD, IBM, CSCO, ADBE,
    CRM and ORCL, which only [get_company_name_for_ticker] knows.  For a
    ticker in neither table both give "<ticker> Corporation". *)
Theorem X4_company_name_tables_agreement ticker :
  (fallback_company_name ticker = StockSage.get_company_name_for_ticker ticker
   <-> ~ In ticker [ "GOOGL"; "GOOG"; "MA"; "PYPL"; "DIS"; "NFLX"; "INTC"; "AMD";
                     "IBM"; "CSCO"; "ADBE"; "CRM"; "ORCL" ])
  /\ (~ In ticker [ "AAPL"; "MSFT"; "AMZN"; "GOOGL"; "GOOG"; "META"; "TSLA";
                    "NVDA"; "JPM"; "V"; "MA"; "PYPL"; "DIS"; "NFLX"; "INTC";
                    "AMD"; "IBM"; "CSCO"; "ADBE"; "CRM"; "ORCL" ] ->
      fallback_company_name ticker = ticker +:+ " Corporation"
      /\ StockSage.get_company_name_for_ticker ticker = ticker +:+ " Corporation").
Proof.
  assert (Hunlisted :
    ~ In ticker [ "AAPL"; "MSFT"; "AMZN"; "GOOGL"; "GOOG"; "META"; "TSLA";
                  "NVDA"; "JPM"; "V"; "MA"; "PYPL"; "DIS"; "NFLX"; "INTC";
                  "AMD"; "IBM"; "CSCO"; "ADBE"; "CRM"; "ORCL" ] ->
    fallback_company_name ticker = ticker +:+ " Corporation"
    /\ StockSage.get_company_name_for_ticker ticker = ticker +:+ " Corporation").
  { intros H. split.
    - apply company_info_unlisted. intros Hin. apply H. simpl in *. tauto.
    - apply company_names_unlisted. intros Hin. apply H. simpl in *. tauto. }
  split; [|exact Hunlisted].
  destruct (string_dec ticker "AAPL") as [->|?]; [tables_agree|].
  destruct (string_dec ticker "MSFT") as [->|?]; [tables_agree|].
  destruct (string_dec ticker "AMZN") as [->|?]; [tables_agree|].
  destruct (string_dec ticker "META") as [->|?]; [tables_agree|].
  destruct (string_dec ticker "TSLA") as [->|?]; [tables_agree|].
  destruct (string_dec ticker "NVDA") as [->|?]; [tables_agree|].
  destruct (string_dec ticker "JPM") as [->|?]; [tables_agree|].
  destruct (string_dec ticker "V") as [->|?]; [tables_agree|].
  destruct (string_dec ticker "GOOGL") as [->|?]; [tables_disagree|].
  destruct (string_dec ticker "GOOG") as [->|?]; [tables_disagree|].
  destruct (string_dec ticker "MA") as [->|?]; [tables_disagree|].
  destruct (string_dec ticker "PYPL") as [->|?]; [tables_disagree|].
  destruct (string_dec ticker "DIS") as [->|?]; [tables_disagree|].
  destruct (string_dec ticker "NFLX") as [->|?]; [tables_disagree|].
  destruct (string_dec ticker "INTC") as [->|?]; [tables_disagree|].
  destruct (string_dec ticker "AMD") as [->|?]; [tables_disagree|].
  destruct (string_dec ticker "IBM") as [->|?]; [tables_disagree|].
  destruct (string_dec ticker "CSCO") as [->|?]; [tables_disagree|].
  destruct (string_dec ticker "ADBE") as [->|?]; [tables_disagree|].
  destruct (string_dec ticker "CRM") as [->|?]; [tables_disagree|].
  destruct (string_dec ticker "ORCL") as [->|?]; [tables_disagree|].
  assert (Hnot : ~ In ticker [ "AAPL"; "MSFT"; "AMZN"; "GOOGL"; "GOOG"; "META";
                               "TSLA"; "NVDA"; "JPM"; "V"; "MA"; "PYPL"; "DIS";
                               "NFLX"; "INTC"; "AMD"; "IBM"; "CSCO"; "ADBE";
                               "CRM"; "ORCL" ]).
  { simpl. intros H.
    repeat (destruct H as [H|H]; [symmetry in H; contradiction|]). exact H. }
  destruct (Hunlisted Hnot) as [-> ->].
  split; [intros _; intros Hin; apply Hnot; simpl in *; tauto | reflexivity].
Qed.

Lemma X4_company_name_tables_agreement_witness :
  ~ In "ZZZZ" [ "AAPL"; "MSFT"; "AMZN"; "GOOGL"; "GOOG"; "META"; "TSLA";
                "NVDA"; "JPM"; "V"; "MA"; "PYPL"; "DIS"; "NFLX"; "INTC";
                "AMD"; "IBM"; "CSCO"; "ADBE"; "CRM"; "ORCL" ]
  /\ fallback_company_name "ZZZZ" = "ZZZZ Corporation"
  /\ StockSage.get_company_name_for_ticker "ZZZZ" = "ZZZZ Corporation".
Proof.
  assert (H : ~ In "ZZZZ" [ "AAPL"; "MSFT"; "AMZN"; "GOOGL"; "GOOG"; "META"; "TSLA";
                            "NVDA"; "JPM"; "V"; "MA"; "PYPL"; "DIS"; "NFLX"; "INTC";
                            "AMD"; "IBM"; "CSCO"; "ADBE"; "CRM"; "ORCL" ]).
  { simpl. intros H. repeat (destruct H as [H|H]; [discriminate H|]). exact H. }
  split; [exact H|].
  exact (proj2 (X4_company_name_tables_agreement "ZZZZ") H).
Defined.

(* ===================================================================== *)
(** ** Further properties: fetching *)
(* ===================================================================== *)

Lemma fetch_stock_news_organic self env ticker search_query data organic :
  post env (serper_api_key self) (StockSage.query ticker search_query)
  = Serper.Json data ->
  Serper.news data = None \/ Serper.news data = Some [] ->
  Serper.organic data = Some organic ->
  StockSage.fetch_stock_news self env ticker search_query
  = filter (fun item : NewsItem => Py.has_key item "snippet" = true) organic.
Proof.
  intros Hpost Hnews Horg. unfold StockSage.fetch_stock_news.
  rewrite Hpost, Horg. destruct Hnews as [-> | ->]; reflexivity.
Qed.

Lemma processed_snippets polarity env ticker days items ps :
  Forall2 (processed_from polarity env ticker days) items ps ->
  Forall (fun p => exists item : NewsItem,
            item ∈ items /\ snippet p = Py.get item "snippet" "No content available")
    ps.
Proof.
  induction 1 as [|item p items ps Hp _ IH]; constructor.
  - exists item. split; [left|]. apply Hp.
  - eapply Forall_impl; [exact IH|].
    intros q (it & Hin & Hq). exists it. split; [right; exact Hin | exact Hq].
Qed.

(** X5. When the search API answers with no "news" entry (or an empty
    one) and an "organic" entry, the tool keeps exactly the organic
    results that have a "snippet" key, in their order; so every item of
    the report then shows the snippet of an organic result, and the
    placeholder "No content available" is never substituted. *)
Theorem X5_organic_results_need_a_snippet
    polarity self env ticker days search_query data organic r :
  post env (serper_api_key self) (StockSage.query ticker search_query)
  = Serper.Json data ->
  Serper.news data = None \/ Serper.news data = Some [] ->
  Serper.organic data = Some organic ->
  StockSage._run polarity self env ticker days search_query = Py.Ok r ->
  let fetched := StockSage.fetch_stock_news self env ticker search_query in
  fetched = filter (fun item : NewsItem => Py.has_key item "snippet" = true) organic
  /\ fetched `sublist_of` organic
  /\ Forall (fun p => exists item : NewsItem,
               item ∈ organic /\ item !! "snippet" = Some (snippet p))
       (news_items r).
Proof.
  intros Hpost Hnews Horg Hrun. cbv zeta.
  pose proof (fetch_stock_news_organic self env ticker search_query data organic
                Hpost Hnews Horg) as Hfetch.
  split; [exact Hfetch|]. split; [rewrite Hfetch; apply sublist_filter|].
  apply run_inversion in Hrun as [Hitems _].
  apply processed_snippets in Hitems.
  eapply Forall_impl; [exact Hitems|].
  intros p (item & Hin & Hp). exists item.
  rewrite first_ten_take in Hin. apply elem_of_take in Hin as (i & Hin & _).
  apply list_elem_of_lookup_2 in Hin.
  rewrite Hfetch in Hin. apply list_elem_of_filter in Hin as [Hkey Hin].
  split; [exact Hin|].
  unfold Py.has_key in Hkey. unfold Py.get in Hp.
  destruct (item !! "snippet") as [v|]; [rewrite Hp; reflexivity | discriminate Hkey].
Qed.

Lemma X5_organic_results_need_a_snippet_witness :
  let organic : list NewsItem :=
    [ {[ "title" := "With snippet"; "snippet" := "Body" ]};
      {[ "title" := "Without snippet" ]} ] in
  let env :=
    {| today := 739923; environ := ∅;
       post := fun _ _ => Serper.Json (Serper.Payload None (Some organic)) |} in
  exists r,
    StockSage._run neutral_polarity {| serper_api_key := Some "key" |} env "AAPL" 30 None
    = Py.Ok r
    /\ map headline (news_items r) = [ "With snippet" ]
    /\ Forall (fun p => exists item : NewsItem,
                 item ∈ organic /\ item !! "snippet" = Some (snippet p))
         (news_items r).
Proof.
  cbv zeta. eexists. split; [vm_compute; reflexivity|].
  split; [vm_compute; reflexivity|].
  refine (proj2 (proj2
    (X5_organic_results_need_a_snippet neutral_polarity {| serper_api_key := Some "key" |}
       {| today := 739923; environ := ∅;
          post := fun _ _ =>
            Serper.Json (Serper.Payload None
              (Some [ {[ "title" := "With snippet"; "snippet" := "Body" ]};
                      {[ "title" := "Without snippet" ]} ])) |}
       "AAPL" 30 None _ _ _ eq_refl (or_introl eq_refl) eq_refl _))).
  vm_compute. reflexivity.
Defined.

(** X6. An empty search query is treated as no query at all: the
    request text, the fallback news and the whole report are those of a
    call without query. *)
Theorem X6_empty_query_is_no_query polarity self env ticker days :
  StockSage.query ticker (Some "") = StockSage.query ticker None
  /\ StockSage.get_fallback_news_data ticker (Some "")
     = StockSage.get_fallback_news_data ticker None
  /\ StockSage.fetch_stock_news self env ticker (Some "")
     = StockSage.fetch_stock_news self env ticker None
  /\ StockSage._run polarity self env ticker days (Some "")
     = StockSage._run polarity self env ticker days None.
Proof.
  assert (Hfb : StockSage.get_fallback_news_data ticker (Some "")
                = StockSage.get_fallback_news_data ticker None) by reflexivity.
  assert (Hfetch : StockSage.fetch_stock_news self env ticker (Some "")
                   = StockSage.fetch_stock_news self env ticker None).
  { unfold StockSage.fetch_stock_news. rewrite Hfb. reflexivity. }
  split; [reflexivity|]. split; [exact Hfb|]. split; [exact Hfetch|].
  unfold StockSage._run. rewrite Hfetch. reflexivity.
Qed.

(* ===================================================================== *)
(** ** Further properties: scores, ratings, mentions, dates *)
(* ===================================================================== *)

Lemma round_half_even_between (a b : Z) (y : Q) :
  (inject_Z a <= y <= inject_Z b)%Q -> a <= Py.round_half_even y <= b.
Proof.
  intros [Hlo Hhi]. unfold Py.round_half_even.
  assert (Hf1 : a <= Qfloor y)
    by (rewrite <- (Qfloor_Z a); apply Qfloor_resp_le; exact Hlo).
  assert (Hf2 : Qfloor y <= b)
    by (rewrite <- (Qfloor_Z b); apply Qfloor_resp_le; exact Hhi).
  destruct (Py.ltb (y - inject_Z (Qfloor y)) (1 # 2)) eqn:E1; [lia|].
  apply ltb_ge in E1.
  assert (Hne : Qfloor y <> b).
  { intros Heq. rewrite Heq in E1. lra. }
  destruct (Py.ltb (1 # 2) (y - inject_Z (Qfloor y))); [lia|].
  destruct (Z.even (Qfloor y)); lia.
Qed.

Lemma round_half_even_close (y : Q) :
  (- (1 # 2) <= inject_Z (Py.round_half_even y) - y <= 1 # 2)%Q.
Proof.
  unfold Py.round_half_even.
  pose proof (Qfloor_le y) as Hle. pose proof (Qlt_floor y) as Hlt.
  rewrite inject_Z_plus in Hlt. change (inject_Z 1) with 1%Q in Hlt.
  destruct (Py.ltb (y - inject_Z (Qfloor y)) (1 # 2)) eqn:E1.
  - apply ltb_lt in E1. lra.
  - apply ltb_ge in E1.
    destruct (Py.ltb (1 # 2) (y - inject_Z (Qfloor y))) eqn:E2.
    + rewrite inject_Z_plus. change (inject_Z 1) with 1%Q. lra.
    + apply ltb_ge in E2. destruct (Z.even (Qfloor y)).
      * lra.
      * rewrite inject_Z_plus. change (inject_Z 1) with 1%Q. lra.
Qed.

Lemma round2_as_quotient (x : Q) :
  (Py.round2 x == inject_Z (Py.round_half_even (x * 100)) * (1 # 100))%Q.
Proof.
  unfold Py.round2, Qeq. simpl. lia.
Qed.

Lemma round2_close (x : Q) : (- (1 # 200) <= Py.round2 x - x <= 1 # 200)%Q.
Proof.
  rewrite round2_as_quotient.
  pose proof (round_half_even_close (x * 100)) as H. lra.
Qed.

Lemma round2_between (a b : Z) (x : Q) :
  (a # 100 <= x <= b # 100)%Q -> (a # 100 <= Py.round2 x <= b # 100)%Q.
Proof.
  intros [Hlo Hhi].
  assert (Ha : (a # 100 == inject_Z a * (1 # 100))%Q) by (unfold Qeq; simpl; lia).
  assert (Hb : (b # 100 == inject_Z b * (1 # 100))%Q) by (unfold Qeq; simpl; lia).
  rewrite Ha in Hlo. rewrite Hb in Hhi.
  pose proof (round_half_even_between a b (x * 100) ltac:(split; lra)) as [H1 H2].
  unfold Py.round2, Qle. simpl. lia.
Qed.

Lemma item_label_inv (s : Q) :
  (item_label s = "positive" -> (1 # 10 < s)%Q)
  /\ (item_label s = "negative" -> (s < - (1 # 10))%Q)
  /\ (item_label s = "neutral" -> (- (1 # 10) <= s <= 1 # 10)%Q).
Proof.
  unfold item_label.
  destruct (Py.ltb (1 # 10) s) eqn:E1.
  { apply ltb_lt in E1.
    split; [|split]; intros H; [exact E1 | discriminate H | discriminate H]. }
  apply ltb_ge in E1.
  destruct (Py.ltb s (- (1 # 10))) eqn:E2.
  { apply ltb_lt in E2.
    split; [|split]; intros H; [discriminate H | exact E2 | discriminate H]. }
  apply ltb_ge in E2.
  split; [|split]; intros H; [discriminate H | discriminate H | split; assumption].
Qed.

(** X7. In every report, the label of an item and the two-decimal score
    shown next to it never contradict each other, although the label is
    taken from the unrounded score: a "positive" item shows a score of at
    least 0.10, a "negative" one at most -0.10, a "neutral" one a score
    in [-0.10, 0.10]; and the score shown is within 0.005 of the score
    computed for the item. *)
Theorem X7_item_label_agrees_with_shown_score
    polarity self env ticker days search_query r :
  StockSage._run polarity self env ticker days search_query = Py.Ok r ->
  Forall (fun p =>
            (sentiment p = "positive" -> (1 # 10 <= sentiment_score p)%Q)
            /\ (sentiment p = "negative" -> (sentiment_score p <= - (1 # 10))%Q)
            /\ (sentiment p = "neutral" ->
                (- (1 # 10) <= sentiment_score p <= 1 # 10)%Q))
    (news_items r)
  /\ Forall2 (fun item p =>
                let score :=
                  StockSage.get_deterministic_sentiment polarity (item_text item) ticker in
                (- (1 # 200) <= sentiment_score p - score <= 1 # 200)%Q)
       (first_ten (StockSage.fetch_stock_news self env ticker search_query))
       (news_items r).
Proof.
  intros Hrun. apply run_inversion in Hrun as [Hitems _].
  split.
  - induction Hitems as [|item p its ps Hp _ IH]; constructor; [|exact IH].
    destruct Hp as (_ & _ & _ & Hlab & Hsc & _).
    set (s := StockSage.get_deterministic_sentiment polarity (item_text item) ticker) in *.
    destruct (item_label_inv s) as (Hpos & Hneg & Hneu).
    pose proof (get_deterministic_sentiment_range polarity (item_text item) ticker) as Hr.
    fold s in Hr. rewrite Hlab, Hsc.
    split; [|split]; intros H.
    + apply Hpos in H.
      pose proof (round2_between 10 100 s ltac:(split; lra)) as [H1 _]. lra.
    + apply Hneg in H.
      pose proof (round2_between (-100) (-10) s ltac:(split; lra)) as [_ H2]. lra.
    + apply Hneu in H.
      pose proof (round2_between (-10) 10 s ltac:(split; lra)) as [H1 H2].
      split; lra.
  - induction Hitems as [|item p its ps Hp _ IH]; constructor; [|exact IH].
    destruct Hp as (_ & _ & _ & _ & Hsc & _). cbv zeta. rewrite Hsc.
    apply round2_close.
Qed.

Lemma X7_item_label_agrees_with_shown_score_witness :
  exists r,
    StockSage._run neutral_polarity {| serper_api_key := None |}
      (offline 739923) "AAPL" 30 None = Py.Ok r
    /\ Forall (fun p =>
                 (sentiment p = "positive" -> (1 # 10 <= sentiment_score p)%Q)
                 /\ (sentiment p = "negative" -> (sentiment_score p <= - (1 # 10))%Q)
                 /\ (sentiment p = "neutral" ->
                     (- (1 # 10) <= sentiment_score p <= 1 # 10)%Q))
         (news_items r).
Proof.
  eexists. split; [vm_compute; reflexivity|].
  refine (proj1 (X7_item_label_agrees_with_shown_score neutral_polarity
                   {| serper_api_key := None |} (offline 739923) "AAPL" 30 None _ _)).
  vm_compute. reflexivity.
Defined.

Lemma ratings_as_quotients (s : Q) :
  (-1 <= s <= 1)%Q ->
  let scaled := Qfloor ((s + 1) * 50) in
  let r := StockSage.get_deterministic_analyst_ratings s in
  0 <= scaled <= 100
  /\ buy r = scaled / 4
  /\ sell r = (100 - scaled) / 4
  /\ 12 <= hold r <= 25.
Proof.
  intros H. cbv zeta. rewrite analyst_ratings_floor by exact H.
  pose proof (scaled_sentiment_range s H) as Hsc.
  pose proof (hold_ratio_range s H) as [Hh1 Hh2].
  unfold analyst_ratings_spec. cbn [buy hold sell].
  set (scaled := Qfloor ((s + 1) * 50)) in *.
  split; [exact Hsc|].
  split; [unfold Qfloor; simpl; change (Z.pos (1 * 100)) with (25 * 4);
          apply Z.div_mul_cancel_l; lia|].
  split; [unfold Qfloor at 1; simpl; change (Z.pos (1 * 100)) with (25 * 4);
          apply Z.div_mul_cancel_l; lia|].
  set (ratio := (1 - Qabs s / 2)%Q) in *. clearbody ratio.
  split.
  - change 12 with (Qfloor (25 * (1 # 2))). apply Qfloor_resp_le. lra.
  - apply Z.le_trans with (Qfloor 25); [apply Qfloor_resp_le; lra|].
    vm_compute. discriminate.
Qed.

(** X8. The three rating buckets never add up to the 25 analysts they
    are derived from.  For every score in [-1, 1]: buy and sell lie in
    0..25 and add up to 24 or 25, hold lies in 12..25, so the total lies
    between 36 and 49. *)
Theorem X8_ratings_total_between_36_and_49 (s : Q) :
  (-1 <= s <= 1)%Q ->
  let r := StockSage.get_deterministic_analyst_ratings s in
  0 <= buy r <= 25
  /\ 0 <= sell r <= 25
  /\ 24 <= buy r + sell r <= 25
  /\ 12 <= hold r <= 25
  /\ 36 <= buy r + hold r + sell r <= 49.
Proof.
  intros H. cbv zeta.
  destruct (ratings_as_quotients s H) as (Hsc & Hbuy & Hsell & Hhold).
  cbv zeta in Hsc, Hbuy, Hsell, Hhold.
  set (scaled := Qfloor ((s + 1) * 50)) in *.
  set (r := StockSage.get_deterministic_analyst_ratings s) in *.
  assert (Hbs : 0 <= buy r <= 25 /\ 0 <= sell r <= 25 /\ 24 <= buy r + sell r <= 25).
  { rewrite Hbuy, Hsell. clearbody scaled. clear Hbuy Hsell.
    Z.div_mod_to_equations. lia. }
  destruct Hbs as (Hb & Hs & Hsum).
  split; [exact Hb|]. split; [exact Hs|]. split; [exact Hsum|].
  split; [exact Hhold|]. split; [lia|].
  destruct (Z.eq_dec (hold r) 25) as [E|E]; [|lia].
  (* hold = 25 forces s = 0, where buy + sell = 24 *)
  assert (Hs0 : (s == 0)%Q).
  { unfold r in E. rewrite analyst_ratings_floor in E by exact H.
    unfold analyst_ratings_spec in E. cbn [hold] in E.
    pose proof (Qfloor_le (25 * (1 - Qabs s / 2))) as Hle. rewrite E in Hle.
    pose proof (Qabs_nonneg s) as Hnn.
    assert (Ha : (Qabs s <= 0)%Q).
    { unfold Qdiv in Hle. change (/ 2)%Q with (1 # 2)%Q in Hle.
      change (inject_Z 25) with 25%Q in Hle.
      set (a := Qabs s) in *. clearbody a. lra. }
    apply Qabs_Qle_condition in Ha. lra. }
  assert (Hsc50 : scaled = 50).
  { unfold scaled. rewrite Hs0. reflexivity. }
  rewrite Hbuy, Hsell, Hsc50 in *. change (50 / 4) with 12 in *.
  change ((100 - 50) / 4) with 12 in *. lia.
Qed.

Lemma X8_ratings_total_between_36_and_49_witness :
  (-1 <= 97 # 100 <= 1)%Q
  /\ (let r := StockSage.get_deterministic_analyst_ratings (97 # 100) in
      buy r + hold r + sell r = 36 /\ 36 <= buy r + hold r + sell r <= 49).
Proof.
  assert (H : (-1 <= 97 # 100 <= 1)%Q) by (split; discriminate).
  split; [exact H|]. cbv zeta. split; [vm_compute; reflexivity|].
  exact (proj2 (proj2 (proj2 (proj2
           (X8_ratings_total_between_36_and_49 (97 # 100) H))))).
Defined.

(** X9. The split follows the sentiment: between two scores in [-1, 1],
    the higher one gets at least as many buy ratings and at most as many
    sell ratings; hold depends on the magnitude of the score only, and
    does not grow with it. *)
Theorem X9_ratings_follow_the_score (s1 s2 : Q) :
  (-1 <= s1 <= 1)%Q -> (-1 <= s2 <= 1)%Q ->
  let r1 := StockSage.get_deterministic_analyst_ratings s1 in
  let r2 := StockSage.get_deterministic_analyst_ratings s2 in
  ((s1 <= s2)%Q -> buy r1 <= buy r2 /\ sell r2 <= sell r1)
  /\ ((Qabs s1 <= Qabs s2)%Q -> hold r2 <= hold r1).
Proof.
  intros H1 H2. cbv zeta. split.
  - intros Hle.
    destruct (ratings_as_quotients s1 H1) as (_ & -> & -> & _).
    destruct (ratings_as_quotients s2 H2) as (_ & -> & -> & _).
    assert (Hsc : Qfloor ((s1 + 1) * 50) <= Qfloor ((s2 + 1) * 50))
      by (apply Qfloor_resp_le; lra).
    split; apply Z.div_le_mono; lia.
  - intros Habs. rewrite !analyst_ratings_floor by assumption.
    unfold analyst_ratings_spec. cbn [hold]. apply Qfloor_resp_le.
    unfold Qdiv. change (/ 2)%Q with (1 # 2)%Q.
    set (a1 := Qabs s1) in *. set (a2 := Qabs s2) in *. clearbody a1 a2. lra.
Qed.

Lemma X9_ratings_follow_the_score_witness :
  (-1 <= - (1 # 2) <= 1)%Q /\ (-1 <= 1 # 4 <= 1)%Q /\ (- (1 # 2) <= 1 # 4)%Q
  /\ (let r1 := StockSage.get_deterministic_analyst_ratings (- (1 # 2)) in
      let r2 := StockSage.get_deterministic_analyst_ratings (1 # 4) in
      buy r1 <= buy r2 /\ sell r2 <= sell r1).
Proof.
  assert (H1 : (-1 <= - (1 # 2) <= 1)%Q) by (split; discriminate).
  assert (H2 : (-1 <= 1 # 4 <= 1)%Q) by (split; discriminate).
  assert (H3 : (- (1 # 2) <= 1 # 4)%Q) by discriminate.
  split; [exact H1|]. split; [exact H2|]. split; [exact H3|].
  exact (proj1 (X9_ratings_follow_the_score (- (1 # 2)) (1 # 4) H1 H2) H3).
Defined.

(** The mention count in closed form: half of the base count times the
    news count, the news count being raised to 2 when it is smaller. *)
Lemma mentions_closed_form ticker news_count :
  StockSage.get_deterministic_social_media_mentions ticker news_count
  = ((Hashlib.md5_int ticker mod 5000 + 1000) * Z.max news_count 2) / 2.
Proof.
  unfold StockSage.get_deterministic_social_media_mentions, Py.float_of_int,
    Py.true_div, Py.max.
  set (base := Hashlib.md5_int ticker mod 5000 + 1000).
  assert (Hbase : 1000 <= base).
  { pose proof (Z.mod_pos_bound (Hashlib.md5_int ticker) 5000 ltac:(lia)). lia. }
  destruct (Py.ltb 1 (news_count # 2)) eqn:E.
  - apply ltb_lt in E. unfold Qlt in E. simpl in E.
    rewrite Z.max_l by lia.
    rewrite int_of_float_floor.
    + unfold Qfloor. simpl. reflexivity.
    + apply Qmult_le_0_compat; unfold Qle; simpl; lia.
  - apply ltb_ge in E. unfold Qle in E. simpl in E.
    rewrite Z.max_r by lia.
    rewrite int_of_float_floor.
    + unfold Qfloor. simpl. rewrite Z.div_1_r, Z.div_mul by lia. lia.
    + unfold Qle; simpl; lia.
Qed.



Lemma adjustment_at_most_9_hundredths text seed :
  (- (10 # 100) <= StockSage.adjustment text seed <= 9 # 100)%Q.
Proof.
  unfold StockSage.adjustment, Py.true_div.
  pose proof (Z.mod_pos_bound (Hashlib.md5_int (text +:+ seed)) 20 ltac:(lia)) as H.
  unfold Qle; simpl. lia.
Qed.

Lemma sentiment_near_polarity polarity text seed :
  (-1 <= polarity text <= 1)%Q ->
  (polarity text - (10 # 100)
   <= StockSage.get_deterministic_sentiment polarity text seed
   <= polarity text + (9 # 100))%Q.
Proof.
  intros Hp. pose proof (adjustment_at_most_9_hundredths text seed) as Ha.
  unfold StockSage.get_deterministic_sentiment, Py.max, Py.min.
  set (a := StockSage.adjustment text seed) in *. clearbody a.
  set (p := polarity text) in *. clearbody p.
  destruct (Py.ltb 1 (p + a)) eqn:E1.
  - apply ltb_lt in E1.
    destruct (Py.ltb 1 (-1)) eqn:E2; [apply ltb_lt in E2; lra|]. lra.
  - apply ltb_ge in E1.
    destruct (Py.ltb (p + a) (-1)) eqn:E2.
    + apply ltb_lt in E2. lra.
    + lra.
Qed.

(** X11. The hash adjustment cannot overturn a clear sentiment.  When
    the estimator yields polarities in [-1, 1], the score of a text lies
    between polarity - 0.10 and polarity + 0.09; so in every report an
    item whose text has a polarity above 0.2 is labelled positive and one
    whose text has a polarity below -0.19 is labelled negative. *)
Theorem X11_adjustment_keeps_clear_sentiment
    (polarity : string -> Q) self env ticker days search_query r :
  (forall text, (-1 <= polarity text <= 1)%Q) ->
  StockSage._run polarity self env ticker days search_query = Py.Ok r ->
  Forall2
    (fun item p =>
       let score :=
         StockSage.get_deterministic_sentiment polarity (item_text item) ticker in
       (polarity (item_text item) - (10 # 100) <= score
        <= polarity (item_text item) + (9 # 100))%Q
       /\ ((2 # 10 < polarity (item_text item))%Q -> sentiment p = "positive")
       /\ ((polarity (item_text item) < - (19 # 100))%Q -> sentiment p = "negative"))
    (first_ten (StockSage.fetch_stock_news self env ticker search_query))
    (news_items r).
Proof.
  intros Hpol Hrun. apply run_inversion in Hrun as [Hitems _].
  induction Hitems as [|item p its ps Hp _ IH]; constructor; [|exact IH].
  destruct Hp as (_ & _ & _ & Hlab & _). cbv zeta.
  pose proof (sentiment_near_polarity polarity (item_text item) ticker
                (Hpol (item_text item))) as Hnear.
  set (s := StockSage.get_deterministic_sentiment polarity (item_text item) ticker) in *.
  destruct (follows_item_label s) as (Hpos & Hneg & _).
  split; [exact Hnear|]. rewrite Hlab.
  split; intros H; [apply Hpos | apply Hneg]; lra.
Qed.

Lemma X11_adjustment_keeps_clear_sentiment_witness :
  (forall text, (-1 <= (fun _ : string => 1 # 2) text <= 1)%Q)
  /\ exists r,
       StockSage._run (fun _ => 1 # 2) {| serper_api_key := None |}
         (offline 739923) "AAPL" 30 None = Py.Ok r
       /\ Forall2
            (fun (item : NewsItem) p =>
               ((2 # 10 < 1 # 2)%Q -> sentiment p = "positive"))
            (first_ten (StockSage.fetch_stock_news {| serper_api_key := None |}
                          (offline 739923) "AAPL" None))
            (news_items r).
Proof.
  assert (Hpol : forall text, (-1 <= (fun _ : string => 1 # 2) text <= 1)%Q)
    by (intros text; split; discriminate).
  split; [exact Hpol|].
  eexists. split; [vm_compute; reflexivity|].
  eapply Forall2_impl.
  - exact (X11_adjustment_keeps_clear_sentiment (fun _ => 1 # 2)
             {| serper_api_key := None |} (offline 739923) "AAPL" 30 None _
             Hpol ltac:(vm_compute; reflexivity)).
  - intros item p (_ & H & _). exact H.
Defined.

Lemma get_deterministic_date_ok env ticker headline days s :
  StockSage.get_deterministic_date env ticker headline days = Py.Ok s ->
  exists d, StockSage.days_back ticker headline days = Py.Ok d
            /\ s = Datetime.strftime_ymd (today env - d)
            /\ 1 <= today env - d <= Datetime.max_ordinal.
Proof.
  unfold StockSage.get_deterministic_date.
  destruct (StockSage.days_back ticker headline days) as [d|e]; simpl; [|discriminate].
  unfold Datetime.minus_days.
  destruct (Z.abs d >? Datetime.max_delta_days); simpl; [discriminate|].
  destruct (andb (1 <=? today env - d) (today env - d <=? Datetime.max_ordinal)) eqn:E;
    simpl; [|discriminate].
  intros H. injection H as <-. exists d.
  apply andb_true_iff in E as [E1 E2]. apply Z.leb_le in E1, E2.
  split; [reflexivity|]. split; [reflexivity | lia].
Qed.

(** X12. The dates of a report lie in the look-back window: for
    [days >= 1] every item is dated between [days] days ago and
    yesterday, never today and never in the future.  A negative [days]
    is accepted and turns the window around: the dates then run from
    yesterday to [-days - 2] days ahead. *)
Theorem X12_dates_lie_in_the_window
    polarity self env ticker days search_query r :
  StockSage._run polarity self env ticker days search_query = Py.Ok r ->
  (1 <= days ->
   Forall (fun p => exists o, date p = Datetime.strftime_ymd o
                              /\ today env - days <= o <= today env - 1)
     (news_items r))
  /\ (days <= -1 ->
      Forall (fun p => exists o, date p = Datetime.strftime_ymd o
                                 /\ today env - 1 <= o <= today env - days - 2)
        (news_items r)).
Proof.
  intros Hrun. apply run_inversion in Hrun as [Hitems _].
  split; intros Hd;
    induction Hitems as [|item p its ps Hp _ IH]; constructor; try exact IH;
    destruct Hp as (_ & _ & Hdate & _);
    apply get_deterministic_date_ok in Hdate as (d & Hback & -> & _);
    destruct (days_back_range ticker (Py.get item "title" "") days ltac:(lia))
      as (d' & Hback' & Hpos & Hneg);
    rewrite Hback in Hback'; injection Hback' as <-;
    exists (today env - d); (split; [reflexivity|]).
  - specialize (Hpos ltac:(lia)). lia.
  - specialize (Hneg ltac:(lia)). lia.
Qed.

Lemma X12_dates_lie_in_the_window_witness :
  1 <= 30
  /\ exists r,
       StockSage._run neutral_polarity {| serper_api_key := None |}
         (offline 739923) "AAPL" 30 None = Py.Ok r
       /\ Forall (fun p => exists o, date p = Datetime.strftime_ymd o
                                     /\ 739923 - 30 <= o <= 739923 - 1)
            (news_items r).
Proof.
  assert (H : 1 <= 30) by lia.
  split; [exact H|].
  eexists. split; [vm_compute; reflexivity|].
  refine (proj1 (X12_dates_lie_in_the_window neutral_polarity
                   {| serper_api_key := None |} (offline 739923) "AAPL" 30 None _ _) H).
  vm_compute. reflexivity.
Defined.

(* ===================================================================== *)
(** ** Further properties: how [_run] fails and what it ignores *)
(* ===================================================================== *)

Lemma get_deterministic_date_raises env ticker headline days e :
  StockSage.get_deterministic_date env ticker headline days = Py.Raise e ->
  (e = Py.ZeroDivisionError /\ days = 0)
  \/ (e = Py.OverflowError /\ days <> 0 /\ ~ in_calendar env days).
Proof.
  intros H. destruct (Z.eq_dec days 0) as [->|Hd].
  - left. split; [|reflexivity]. vm_compute in H. congruence.
  - right. split; [|split; [exact Hd|]].
    + unfold StockSage.get_deterministic_date in H.
      destruct (days_back_range ticker headline days Hd) as (d & Hback & _).
      rewrite Hback in H. simpl in H. unfold Datetime.minus_days in H.
      destruct (Z.abs d >? Datetime.max_delta_days);
        cbv [mbind mret result_bind result_ret Py.bind] in H; [congruence|].
      destruct (andb (1 <=? today env - d) (today env - d <=? Datetime.max_ordinal));
        congruence.
    + intros Hcal.
      destruct (get_deterministic_date_returns env ticker headline days Hd Hcal)
        as [s Hs].
      congruence.
Qed.

Lemma for_each_score_item_raises polarity env ticker days items : forall acc e,
  Py.for_each (StockSage.score_item polarity env ticker days) items acc = Py.Raise e ->
  exists item : NewsItem,
    In item items
    /\ StockSage.get_deterministic_date env ticker (Py.get item "title" "") days
       = Py.Raise e.
Proof.
  induction items as [|item items IH]; intros [acc tot] e H;
    cbn [Py.for_each] in H; [discriminate|].
  destruct (StockSage.get_deterministic_date env ticker (Py.get item "title" "") days)
    as [d|e'] eqn:Hd.
  - unfold StockSage.score_item in H. rewrite Hd in H. simpl in H.
    apply IH in H as (it & Hin & Hit). exists it. split; [right; exact Hin | exact Hit].
  - unfold StockSage.score_item in H. rewrite Hd in H. simpl in H.
    injection H as ->. exists item. split; [left; reflexivity | exact Hd].
Qed.

Lemma run_raises polarity self env ticker days search_query e :
  StockSage._run polarity self env ticker days search_query = Py.Raise e ->
  exists item : NewsItem,
    In item (first_ten (StockSage.fetch_stock_news self env ticker search_query))
    /\ StockSage.get_deterministic_date env ticker (Py.get item "title" "") days
       = Py.Raise e.
Proof.
  unfold StockSage._run.
  fold (first_ten (StockSage.fetch_stock_news self env ticker search_query)).
  destruct (Py.for_each _ (first_ten _) ([], 0%Q)) as [[processed total]|e'] eqn:E;
    simpl; [discriminate|].
  intros H. injection H as ->.
  eapply for_each_score_item_raises. exact E.
Qed.

Lemma first_ten_nonempty (fetched : list NewsItem) :
  first_ten fetched <> [] <-> fetched <> [].
Proof.
  rewrite first_ten_take. destruct fetched; simpl; split; congruence.
Qed.



(** X14. News items past the tenth have no influence at all: two calls
    on the same date whose fetched lists agree on their first ten items
    return the same report (or fail alike), whatever follows in the
    lists. *)
Theorem X14_items_past_the_tenth_are_ignored
    polarity self1 self2 env1 env2 ticker days search_query :
  today env1 = today env2 ->
  take 10 (StockSage.fetch_stock_news self1 env1 ticker search_query)
  = take 10 (StockSage.fetch_stock_news self2 env2 ticker search_query) ->
  StockSage._run polarity self1 env1 ticker days search_query
  = StockSage._run polarity self2 env2 ticker days search_query.
Proof.
  intros Htoday Htake. unfold StockSage._run.
  fold (first_ten (StockSage.fetch_stock_news self1 env1 ticker search_query)).
  fold (first_ten (StockSage.fetch_stock_news self2 env2 ticker search_query)).
  rewrite !first_ten_take, Htake.
  rewrite (for_each_ext (StockSage.score_item polarity env1 ticker days)
                        (StockSage.score_item polarity env2 ticker days)).
  - reflexivity.
  - intros [acc tot] item. unfold StockSage.score_item.
    rewrite (get_deterministic_date_today env1 env2) by exact Htoday.
    reflexivity.
Qed.

Lemma X14_items_past_the_tenth_are_ignored_witness :
  today (online 739923 (numbered_news 12)) = today (online 739923 (numbered_news 15))
  /\ take 10 (StockSage.fetch_stock_news {| serper_api_key := Some "key" |}
                (online 739923 (numbered_news 12)) "AAPL" None)
     = take 10 (StockSage.fetch_stock_news {| serper_api_key := Some "key" |}
                  (online 739923 (numbered_news 15)) "AAPL" None)
  /\ StockSage._run neutral_polarity {| serper_api_key := Some "key" |}
       (online 739923 (numbered_news 12)) "AAPL" 30 None
     = StockSage._run neutral_polarity {| serper_api_key := Some "key" |}
         (online 739923 (numbered_news 15)) "AAPL" 30 None.
Proof.
  assert (H1 : today (online 739923 (numbered_news 12))
               = today (online 739923 (numbered_news 15))) by reflexivity.
  assert (H2 : take 10 (StockSage.fetch_stock_news {| serper_api_key := Some "key" |}
                          (online 739923 (numbered_news 12)) "AAPL" None)
               = take 10 (StockSage.fetch_stock_news {| serper_api_key := Some "key" |}
                            (online 739923 (numbered_news 15)) "AAPL" None))
    by (vm_compute; reflexivity).
  split; [exact H1|]. split; [exact H2|].
  exact (X14_items_past_the_tenth_are_ignored neutral_polarity
           {| serper_api_key := Some "key" |} {| serper_api_key := Some "key" |}
           (online 739923 (numbered_news 12)) (online 739923 (numbered_news 15))
           "AAPL" 30 None H1 H2).
Defined.

(* ===================================================================== *)
(** ** Further properties: the tradesymphony copy of the tool *)
(* ===================================================================== *)

Lemma tradesymphony_company_name ticker :
  TradeSymphony.get_company_name_for_ticker ticker
  = StockSage.get_company_name_for_ticker ticker.
Proof.
  unfold TradeSymphony.get_company_name_for_ticker,
    StockSage.get_company_name_for_ticker,
    TradeSymphony.company_names, StockSage.company_names.
  reflexivity.
Qed.

Lemma tradesymphony_fallback ticker search_query :
  TradeSymphony.get_fallback_news_data ticker search_query
  = StockSage.get_fallback_news_data ticker search_query.
Proof.
  unfold TradeSymphony.get_fallback_news_data, StockSage.get_fallback_news_data,
    TradeSymphony.company_info, StockSage.company_info,
    TradeSymphony.sources, StockSage.sources.
  cbv zeta. reflexivity.
Qed.

Lemma tradesymphony_fetch self env ticker search_query :
  TradeSymphony.fetch_stock_news self env ticker search_query
  = StockSage.fetch_stock_news self env ticker search_query.
Proof.
  unfold TradeSymphony.fetch_stock_news, StockSage.fetch_stock_news,
    TradeSymphony.query, StockSage.query.
  rewrite tradesymphony_company_name, tradesymphony_fallback. reflexivity.
Qed.

Lemma tradesymphony_score_item polarity env ticker days acc item :
  TradeSymphony.score_item polarity env ticker days acc item
  = StockSage.score_item polarity env ticker days acc item.
Proof.
  unfold TradeSymphony.score_item, StockSage.score_item,
    TradeSymphony.get_deterministic_sentiment, StockSage.get_deterministic_sentiment,
    TradeSymphony.adjustment, StockSage.adjustment,
    TradeSymphony.get_deterministic_date, StockSage.get_deterministic_date,
    TradeSymphony.days_back, StockSage.days_back.
  reflexivity.
Qed.

(** X15. The tradesymphony copy of the tool is the stocksage one as far
    as a call goes: with the same key, the same environment and the same
    arguments, [fetch_stock_news] returns the same list and [_run] the
    same report or the same exception.  The two differ in the constructor
    only: without argument and without SERPER_API_KEY in the environment
    the stocksage tool has no key, the tradesymphony one the key written
    in its source. *)
Theorem X15_tradesymphony_tool_agrees
    polarity self env ticker days search_query :
  TradeSymphony.fetch_stock_news self env ticker search_query
  = StockSage.fetch_stock_news self env ticker search_query
  /\ TradeSymphony._run polarity self env ticker days search_query
     = StockSage._run polarity self env ticker days search_query
  /\ (environ env !! "SERPER_API_KEY" = None ->
      serper_api_key (StockSage.init env None) = None
      /\ serper_api_key (TradeSymphony.init env None)
         = Some "07daa2a1ac1b71274fc9fc1f32987bb588d5c0e4")
  /\ (forall key, environ env !! "SERPER_API_KEY" = Some key ->
      serper_api_key (StockSage.init env None) = Some key
      /\ serper_api_key (TradeSymphony.init env None) = Some key).
Proof.
  split; [apply tradesymphony_fetch|]. split.
  - unfold TradeSymphony._run, StockSage._run.
    rewrite tradesymphony_fetch, tradesymphony_company_name.
    rewrite (for_each_ext (TradeSymphony.score_item polarity env ticker days)
                          (StockSage.score_item polarity env ticker days))
      by (intros; apply tradesymphony_score_item).
    unfold TradeSymphony.get_deterministic_sentiment, StockSage.get_deterministic_sentiment,
      TradeSymphony.adjustment, StockSage.adjustment,
      TradeSymphony.get_deterministic_social_media_mentions,
      StockSage.get_deterministic_social_media_mentions,
      TradeSymphony.get_deterministic_analyst_ratings,
      StockSage.get_deterministic_analyst_ratings.
    reflexivity.
  - split.
    + intros H. unfold StockSage.init, TradeSymphony.init, Py.get.
      cbn [serper_api_key]. rewrite H. split; reflexivity.
    + intros key H. unfold StockSage.init, TradeSymphony.init, Py.get.
      cbn [serper_api_key]. rewrite H. split; reflexivity.
Qed.

Lemma X15_tradesymphony_tool_agrees_witness :
  environ (offline 739923) !! "SERPER_API_KEY" = None
  /\ serper_api_key (StockSage.init (offline 739923) None) = None
  /\ serper_api_key (TradeSymphony.init (offline 739923) None)
     = Some "07daa2a1ac1b71274fc9fc1f32987bb588d5c0e4".
Proof.
  assert (H : environ (offline 739923) !! "SERPER_API_KEY" = None) by reflexivity.
  split; [exact H|].
  exact (proj1 (proj2 (proj2
           (X15_tradesymphony_tool_agrees neutral_polarity {| serper_api_key := None |}
              (offline 739923) "AAPL" 30 None))) H).
Defined.

(* ===================================================================== *)
(** ** Further properties: the report built from fallback news *)
(* ===================================================================== *)

Lemma processed_fields polarity env ticker days items ps :
  Forall2 (processed_from polarity env ticker days) items ps ->
  map headline ps = map (fun item : NewsItem => Py.get item "title" "No title") items
  /\ map source ps = map (fun item : NewsItem => Py.get item "source" "Unknown") items
  /\ map url ps = map (fun item : NewsItem => Py.get item "link" "") items.
Proof.
  induction 1 as [|item p items ps Hp _ (IH1 & IH2 & IH3)]; [repeat split|].
  destruct Hp as (Hh & Hs & _ & _ & _ & Hu & _).
  cbn [map]. rewrite Hh, Hs, Hu, IH1, IH2, IH3. repeat split.
Qed.

(** X16. What a report looks like when the request failed.  Whatever
    the ticker and the query, it has exactly 5 items; their headlines are
    the fallback headlines, their sources Bloomberg, CNBC, Wall Street
    Journal, Reuters and Financial Times, their urls the five
    finance.example.com links of the ticker; and the mention count is
    two and a half times the base count of the ticker, rounded down. *)
Theorem X16_report_from_fallback_news
    polarity self env ticker days search_query r :
  fetch_failed (post env (serper_api_key self) (StockSage.query ticker search_query)) ->
  StockSage._run polarity self env ticker days search_query = Py.Ok r ->
  news_count r = 5%nat
  /\ map headline (news_items r) = fallback_titles ticker search_query
  /\ map source (news_items r)
     = [ "Bloomberg"; "CNBC"; "Wall Street Journal"; "Reuters"; "Financial Times" ]
  /\ map url (news_items r)
     = map (fun i => "https://finance.example.com/" +:+ Py.lower ticker
                     +:+ "/news/" +:+ i)
           [ "0"; "1"; "2"; "3"; "4" ]
  /\ social_media_mentions r = ((Hashlib.md5_int ticker mod 5000 + 1000) * 5) / 2.
Proof.
  intros Hfail Hrun. apply run_inversion in Hrun as [Hitems Hr].
  rewrite (fetch_stock_news_no_network _ _ _ _ Hfail) in Hitems, Hr.
  unfold fallback_titles.
  destruct (fallback_five ticker search_query) as (h0 & h1 & h2 & h3 & h4 & Hfb & _).
  rewrite Hfb in *.
  change (first_ten [ fallback_item ticker search_query 0 h0;
                      fallback_item ticker search_query 1 h1;
                      fallback_item ticker search_query 2 h2;
                      fallback_item ticker search_query 3 h3;
                      fallback_item ticker search_query 4 h4 ])
    with [ fallback_item ticker search_query 0 h0;
           fallback_item ticker search_query 1 h1;
           fallback_item ticker search_query 2 h2;
           fallback_item ticker search_query 3 h3;
           fallback_item ticker search_query 4 h4 ] in *.
  destruct (processed_fields _ _ _ _ _ _ Hitems) as (Hh & Hs & Hu).
  assert (Hf : forall i h x,
            Py.get (fallback_item ticker search_query i h) "title" x = h
            /\ Py.get (fallback_item ticker search_query i h) "source" x
               = nth (i mod 5)%nat StockSage.sources ""
            /\ Py.get (fallback_item ticker search_query i h) "link" x
               = "https://finance.example.com/" +:+ Py.lower ticker
                 +:+ "/news/" +:+ Py.str_of_int (Z.of_nat i)).
  { intros i h x.
    pose proof (fallback_item_fields ticker search_query i h x) as H.
    cbv zeta in H. tauto. }
  split; [rewrite Hr; reflexivity|].
  split; [rewrite Hh; cbn [map]; rewrite !(proj1 (Hf _ _ _)); reflexivity|].
  split; [rewrite Hs; cbn [map]; rewrite !(proj1 (proj2 (Hf _ _ _))); reflexivity|].
  split; [rewrite Hu; cbn [map]; rewrite !(proj2 (proj2 (Hf _ _ _))); reflexivity|].
  rewrite Hr. cbn [social_media_mentions]. rewrite mentions_closed_form. reflexivity.
Qed.

Lemma X16_report_from_fallback_news_witness :
  fetch_failed (post (offline 739923) None (StockSage.query "TSLA" (Some "social buzz")))
  /\ exists r,
       StockSage._run neutral_polarity {| serper_api_key := None |}
         (offline 739923) "TSLA" 30 (Some "social buzz") = Py.Ok r
       /\ news_count r = 5%nat
       /\ map url (news_items r)
          = map (fun i => "https://finance.example.com/" +:+ Py.lower "TSLA"
                          +:+ "/news/" +:+ i)
                [ "0"; "1"; "2"; "3"; "4" ].
Proof.
  split; [exact I|].
  eexists. split; [vm_compute; reflexivity|].
  pose proof (X16_report_from_fallback_news neutral_polarity {| serper_api_key := None |}
                (offline 739923) "TSLA" 30 (Some "social buzz") _ I
                ltac:(vm_compute; reflexivity)) as (H1 & _ & _ & H4 & _).
  split; [exact H1 | exact H4].
Defined.

(* ===================================================================== *)
(** ** The dummy Alpha Vantage tool *)
(* ===================================================================== *)

Lemma counter_random_unit : unit_random nat counter_random.
Proof.
  intros g. unfold counter_random. cbn [fst].
  pose proof (Nat.mod_upper_bound g 10 ltac:(discriminate)) as H.
  unfold Qle, Qlt. cbn [Qnum Qden]. lia.
Qed.

Lemma counter_randbelow_index : index_randbelow nat counter_randbelow.
Proof.
  intros n g Hn. unfold counter_randbelow. cbn [fst].
  apply Nat.mod_upper_bound. lia.
Qed.

Lemma uniform_between (G : Type) (random : G -> Q * G) (a b : Q) (g : G) :
  unit_random G random -> (a <= b)%Q ->
  (a <= fst (Random.uniform G random a b g) <= b)%Q.
Proof.
  intros Hr Hab. unfold Random.uniform.
  pose proof (Hr g) as Hu. destruct (random g) as [u g']. cbn [fst] in *.
  split; nra.
Qed.

Lemma uniform_next (G : Type) (random : G -> Q * G) (a b : Q) (g : G) :
  snd (Random.uniform G random a b g) = snd (random g).
Proof.
  unfold Random.uniform. destruct (random g) as [u g']. reflexivity.
Qed.

Lemma choice_in (G : Type) (randbelow : nat -> G -> nat * G)
      (seq : list string) (g : G) :
  index_randbelow G randbelow -> seq <> [] ->
  In (fst (Random.choice G randbelow seq g)) seq.
Proof.
  intros Hi Hne. unfold Random.choice.
  pose proof (Hi (length seq) g) as Hlt.
  destruct (randbelow (length seq) g) as [i g']. cbn [fst] in *.
  apply nth_In. apply Hlt. destruct seq; [congruence | simpl; lia].
Qed.

Lemma round2_within (a b : Z) (x : Q) :
  (inject_Z a <= x <= inject_Z b)%Q ->
  (inject_Z a <= Py.round2 x <= inject_Z b)%Q.
Proof.
  intros [Hlo Hhi].
  pose proof (round_half_even_between (a * 100) (b * 100) (x * 100)) as H.
  rewrite !inject_Z_mult in H.
  destruct H as [H1 H2]; [split; change (inject_Z 100) with 100%Q; lra|].
  unfold Py.round2, Qle, inject_Z. cbn [Qnum Qden]. lia.
Qed.

Lemma candle_between (G : Type) (random : G -> Q * G) (g : G) :
  unit_random G random ->
  consistent_candle (fst (AlphaVantage.candle G random g)).
Proof.
  intros Hr. unfold AlphaVantage.candle.
  pose proof (uniform_between G random 100 110 g Hr ltac:(lra)) as Ho.
  destruct (Random.uniform G random 100 110 g) as [o g1].
  pose proof (uniform_between G random 110 120 g1 Hr ltac:(lra)) as Hh.
  destruct (Random.uniform G random 110 120 g1) as [h g2].
  pose proof (uniform_between G random 90 100 g2 Hr ltac:(lra)) as Hl.
  destruct (Random.uniform G random 90 100 g2) as [l g3].
  pose proof (uniform_between G random 100 110 g3 Hr ltac:(lra)) as Hc.
  destruct (Random.uniform G random 100 110 g3) as [c g4].
  pose proof (uniform_between G random 1000000 5000000 g4 Hr ltac:(lra)) as Hv.
  destruct (Random.uniform G random 1000000 5000000 g4) as [v g5].
  cbn [fst] in *.
  pose proof (round2_within 100 110 o Ho) as Ho'.
  pose proof (round2_within 110 120 h Hh) as Hh'.
  pose proof (round2_within 90 100 l Hl) as Hl'.
  pose proof (round2_within 100 110 c Hc) as Hc'.
  pose proof (round_half_even_between 1000000 5000000 v Hv) as Hv'.
  unfold consistent_candle.
  cbn [AlphaVantage.open AlphaVantage.high AlphaVantage.low
       AlphaVantage.close AlphaVantage.volume].
  change (inject_Z 100) with 100%Q in *.
  change (inject_Z 110) with 110%Q in *.
  change (inject_Z 120) with 120%Q in *.
  change (inject_Z 90) with 90%Q in *.
  split; [lra|]. split; [lra|]. split; [lra|]. split; [lra|]. exact Hv'.
Qed.

Lemma days_between (G : Type) (random : G -> Q * G) (range : list Z) (g : G) :
  unit_random G random ->
  map fst (fst (AlphaVantage.days G random range g))
  = map (fun i => "2025-03-" +:+ Datetime.two_digits i) range
  /\ List.Forall (fun d => consistent_candle (snd d))
                 (fst (AlphaVantage.days G random range g)).
Proof.
  intros Hr. revert g. induction range as [|i rest IH]; intros g.
  { split; [reflexivity | apply List.Forall_nil]. }
  cbn [AlphaVantage.days].
  pose proof (candle_between G random g Hr) as Hc.
  destruct (AlphaVantage.candle G random g) as [c g1].
  specialize (IH g1).
  destruct (AlphaVantage.days G random rest g1) as [data g2].
  cbn [fst snd map] in *. destruct IH as [IH1 IH2].
  split; [rewrite IH1; reflexivity|].
  apply List.Forall_cons; [exact Hc | exact IH2].
Qed.

Lemma overview_between (G : Type) (random : G -> Q * G)
      (randbelow : nat -> G -> nat * G) (g : G) :
  unit_random G random -> index_randbelow G randbelow ->
  plausible_overview (fst (AlphaVantage.overview G random randbelow g)).
Proof.
  intros Hr Hi. unfold AlphaVantage.overview.
  pose proof (choice_in G randbelow
    [ "Technology"; "Healthcare"; "Finance"; "Consumer"; "Energy" ] g Hi
    ltac:(discriminate)) as Hs.
  destruct (Random.choice G randbelow
    [ "Technology"; "Healthcare"; "Finance"; "Consumer"; "Energy" ] g)
    as [sector g1].
  pose proof (choice_in G randbelow
    [ "Software"; "Pharmaceuticals"; "Banking"; "Retail"; "Oil & Gas" ] g1 Hi
    ltac:(discriminate)) as Hn.
  destruct (Random.choice G randbelow
    [ "Software"; "Pharmaceuticals"; "Banking"; "Retail"; "Oil & Gas" ] g1)
    as [industry g2].
  pose proof (uniform_between G random 1000000000 1000000000000 g2 Hr
                ltac:(lra)) as H1.
  destruct (Random.uniform G random 1000000000 1000000000000 g2) as [cap g3].
  pose proof (uniform_between G random 100000000 10000000000 g3 Hr
                ltac:(lra)) as H2.
  destruct (Random.uniform G random 100000000 10000000000 g3) as [ebitda g4].
  pose proof (uniform_between G random 5 50 g4 Hr ltac:(lra)) as H3.
  destruct (Random.uniform G random 5 50 g4) as [pe g5].
  pose proof (uniform_between G random 0 5 g5 Hr ltac:(lra)) as H4.
  destruct (Random.uniform G random 0 5 g5) as [dividend g6].
  pose proof (uniform_between G random 100 500 g6 Hr ltac:(lra)) as H5.
  destruct (Random.uniform G random 100 500 g6) as [high52 g7].
  pose proof (uniform_between G random 50 100 g7 Hr ltac:(lra)) as H6.
  destruct (Random.uniform G random 50 100 g7) as [low52 g8].
  pose proof (uniform_between G random 100 300 g8 Hr ltac:(lra)) as H7.
  destruct (Random.uniform G random 100 300 g8) as [ma50 g9].
  pose proof (uniform_between G random 100 300 g9 Hr ltac:(lra)) as H8.
  destruct (Random.uniform G random 100 300 g9) as [ma200 g10].
  pose proof (uniform_between G random 100 500 g10 Hr ltac:(lra)) as H9.
  destruct (Random.uniform G random 100 500 g10) as [target g11].
  cbn [fst] in *.
  unfold plausible_overview.
  cbn [AlphaVantage.Sector AlphaVantage.Industry AlphaVantage.MarketCap
       AlphaVantage.EBITDA AlphaVantage.PERatio AlphaVantage.DividendYield
       AlphaVantage.Week52High AlphaVantage.Week52Low AlphaVantage.MA50Day
       AlphaVantage.MA200Day AlphaVantage.AnalystTargetPrice].
  split; [exact Hs|]. split; [exact Hn|].
  split; [exact (round2_within 50 100 low52 H6)|].
  split; [exact (round2_within 100 500 high52 H5)|].
  split; [exact (round2_within 100 300 ma50 H7)|].
  split; [exact (round2_within 100 300 ma200 H8)|].
  split; [exact (round2_within 100 500 target H9)|].
  split; [exact (round2_within 5 50 pe H3)|].
  split; [exact (round2_within 1000000000 1000000000000 cap H1)|].
  split; [exact (round2_within 100000000 10000000000 ebitda H2)|].
  exists (Py.round_half_even (dividend * 100)). split; [|reflexivity].
  apply (round_half_even_between 0 500).
  change (inject_Z 0) with 0%Q. change (inject_Z 500) with 500%Q.
  split; lra.
Qed.

(** X17. Asked for "TIME_SERIES_DAILY", the dummy Alpha Vantage tool
    returns, whatever the ticker and the state of the generator, the
    ticker and the function back with five days of prices, keyed
    2025-03-01 to 2025-03-05 in this order; every day's open and close
    lie between its low and its high, the low is at least 90, the high at
    most 120, and the volume is a whole number between one and five
    million. *)
Theorem X17_daily_prices_are_consistent
        (G : Type) (random : G -> Q * G) (randbelow : nat -> G -> nat * G)
        (ticker : string) (g : G) :
  unit_random G random ->
  exists data g',
    AlphaVantage._run G random randbelow ticker "TIME_SERIES_DAILY" g
    = (AlphaVantage.TimeSeries ticker "TIME_SERIES_DAILY" data, g')
    /\ map fst data
       = [ "2025-03-01"; "2025-03-02"; "2025-03-03"; "2025-03-04";
           "2025-03-05" ]
    /\ List.Forall (fun d => consistent_candle (snd d)) data.
Proof.
  intros Hr. unfold AlphaVantage._run. cbn [String.eqb Ascii.eqb].
  change (String.eqb "TIME_SERIES_DAILY" "TIME_SERIES_DAILY") with true.
  cbv iota.
  pose proof (days_between G random [1; 2; 3; 4; 5] g Hr) as [Hk Hc].
  destruct (AlphaVantage.days G random [1; 2; 3; 4; 5] g) as [data g'].
  exists data, g'. cbn [fst] in *.
  split; [reflexivity|]. split; [exact Hk | exact Hc].
Qed.

Lemma X17_daily_prices_are_consistent_witness :
  unit_random nat counter_random
  /\ exists data g',
       AlphaVantage._run nat counter_random counter_randbelow
                         "AAPL" "TIME_SERIES_DAILY" 3%nat
       = (AlphaVantage.TimeSeries "AAPL" "TIME_SERIES_DAILY" data, g')
       /\ map fst data
          = [ "2025-03-01"; "2025-03-02"; "2025-03-03"; "2025-03-04";
              "2025-03-05" ]
       /\ List.Forall (fun d => consistent_candle (snd d)) data.
Proof.
  split; [exact counter_random_unit|].
  exact (X17_daily_prices_are_consistent nat counter_random counter_randbelow
           "AAPL" 3%nat counter_random_unit).
Defined.

(** X18. Asked for "OVERVIEW", the dummy Alpha Vantage tool returns,
    whatever the ticker and the state of the generator, the ticker and
    the function back with a sector and an industry out of its two lists
    of five, a 52-week low of at most 100 and a 52-week high of at least
    100 (so the low never exceeds the high), both moving averages between
    100 and 300, a target price between 100 and 500, a P/E ratio between
    5 and 50, and a dividend yield that is a number of hundredths between
    0 and 5 followed by a percent sign. *)
Theorem X18_overview_is_plausible
        (G : Type) (random : G -> Q * G) (randbelow : nat -> G -> nat * G)
        (ticker : string) (g : G) :
  unit_random G random -> index_randbelow G randbelow ->
  exists o g',
    AlphaVantage._run G random randbelow ticker "OVERVIEW" g
    = (AlphaVantage.CompanyOverview ticker "OVERVIEW" o, g')
    /\ plausible_overview o
    /\ (AlphaVantage.Week52Low o <= AlphaVantage.Week52High o)%Q.
Proof.
  intros Hr Hi. unfold AlphaVantage._run.
  change (String.eqb "OVERVIEW" "TIME_SERIES_DAILY") with false.
  change (String.eqb "OVERVIEW" "OVERVIEW") with true.
  cbv iota.
  pose proof (overview_between G random randbelow g Hr Hi) as Ho.
  destruct (AlphaVantage.overview G random randbelow g) as [o g'].
  exists o, g'. cbn [fst] in *.
  split; [reflexivity|]. split; [exact Ho|].
  destruct Ho as (_ & _ & Hlow & Hhigh & _). lra.
Qed.

Lemma X18_overview_is_plausible_witness :
  unit_random nat counter_random
  /\ index_randbelow nat counter_randbelow
  /\ exists o g',
       AlphaVantage._run nat counter_random counter_randbelow
                         "AAPL" "OVERVIEW" 3%nat
       = (AlphaVantage.CompanyOverview "AAPL" "OVERVIEW" o, g')
       /\ plausible_overview o
       /\ (AlphaVantage.Week52Low o <= AlphaVantage.Week52High o)%Q.
Proof.
  split; [exact counter_random_unit|].
  split; [exact counter_randbelow_index|].
  exact (X18_overview_is_plausible nat counter_random counter_randbelow
           "AAPL" 3%nat counter_random_unit counter_randbelow_index).
Defined.
